(** * The colour plugin of Native Launcher (examples/plugins/color/color.py)

    A shallow embedding of the plugin's colour codec and format detector:
    [hex_to_rgb], [rgb_to_hex], [rgb_to_hsl], [hsl_to_rgb_tuple],
    [parse_color] (the spec's [detect]) and [generate_color_results] (the
    spec's [render]), together with the parts of the Python runtime they
    call: string methods, [int], string formatting, the [re] matcher on the
    four patterns of the plugin, binary64 floats and the [colorsys] module;
    further [main] up to the value it prints, and the script
    scripts/measure_latency.py.

    Conventions.
    - A Python [str] is a Rocq [string]; a character is a code point in
      U+0000..U+00FF, and the classifications below ([is_space], [lower_char],
      ...) are Python's on that range.  The literals of the result records
      that lie beyond it (the preview blocks and the bullet) are kept in the
      UTF-8 encoding of the source file; they are only concatenated.
    - A Python [int] is a [Z].  The limit of the interpreter on the number
      of decimal digits that [int] converts is the default one of CPython
      3.11 and later, 4300 digits: the plugin does not change it.
    - A Python [float] is a primitive binary64 [float]; its operations are
      the IEEE 754 ones of the kernel.
    - A call that may raise returns a [result]. *)

From Stdlib Require Import ZArith NArith List Bool Ascii String Lia.
From Stdlib Require Import DecimalString HexadecimalString.
From Stdlib Require Import Uint63 Floats.
Import ListNotations.

Local Open Scope string_scope.
Local Open Scope Z_scope.

(** ** Exceptions and results *)

Inductive exn : Type :=
| ValueError
| OverflowError
| ZeroDivisionError.

Inductive result (A : Type) : Type :=
| Ok (a : A)
| Raise (e : exn).

Arguments Ok {A} a.
Arguments Raise {A} e.

Definition bind {A B : Type} (m : result A) (f : A -> result B) : result B :=
  match m with
  | Ok a => f a
  | Raise e => Raise e
  end.

Notation "x <- m ;; k" := (bind m (fun x => k))
  (at level 61, m at next level, right associativity).
Notation "' p <- m ;; k" := (bind m (fun x => match x with p => k end))
  (at level 61, p pattern, m at next level, right associativity).

(** ** Characters and the string methods the plugin calls *)

Module Str.

Definition code (c : ascii) : N := N_of_ascii c.

Definition between (lo hi : N) (c : ascii) : bool :=
  ((lo <=? code c) && (code c <=? hi))%N.

(** [str.isspace] on one character, also the class [\s] of [re] and the
    characters removed by [str.strip]:
    U+0009..U+000D, U+001C..U+0020, U+0085 and U+00A0. *)
Definition is_space (c : ascii) : bool :=
  between 9 13 c || between 28 32 c || (code c =? 133)%N || (code c =? 160)%N.

(** The class [\d] of [re]: the decimal digits, below U+0100 only 0-9. *)
Definition is_digit (c : ascii) : bool := between 48 57 c.

(** The class [[0-9a-f]]. *)
Definition is_lower_hex (c : ascii) : bool := between 48 57 c || between 97 102 c.

(** A hexadecimal digit of either case. *)
Definition is_hex (c : ascii) : bool :=
  between 48 57 c || between 97 102 c || between 65 70 c.

(** [str.lower] on one character: A-Z, and U+00C0..U+00DE except the
    multiplication sign U+00D7, move up by 32. *)
Definition lower_char (c : ascii) : ascii :=
  if between 65 90 c || (between 192 222 c && negb (code c =? 215)%N)
  then ascii_of_N (code c + 32)
  else c.

(** [str.upper] on one character of ASCII text (the plugin applies it to the
    output of [rgb_to_hex] only). *)
Definition upper_char (c : ascii) : ascii :=
  if between 97 122 c then ascii_of_N (code c - 32) else c.

Fixpoint map (f : ascii -> ascii) (s : string) : string :=
  match s with
  | EmptyString => EmptyString
  | String c s' => String (f c) (map f s')
  end.

Definition lower (s : string) : string := map lower_char s.
Definition upper (s : string) : string := map upper_char s.

(** [s.lstrip(chars)], the set of characters given as a predicate. *)
Fixpoint lstrip (p : ascii -> bool) (s : string) : string :=
  match s with
  | EmptyString => EmptyString
  | String c s' => if p c then lstrip p s' else s
  end.

Fixpoint rstrip (p : ascii -> bool) (s : string) : string :=
  match s with
  | EmptyString => EmptyString
  | String c s' =>
      match rstrip p s' with
      | EmptyString => if p c then EmptyString else String c EmptyString
      | t => String c t
      end
  end.

(** [s.strip()] *)
Definition strip (s : string) : string := rstrip is_space (lstrip is_space s).

Fixpoint forallb (p : ascii -> bool) (s : string) : bool :=
  match s with
  | EmptyString => true
  | String c s' => p c && forallb p s'
  end.

(** [c * n] *)
Fixpoint repeat (c : ascii) (n : nat) : string :=
  match n with
  | O => EmptyString
  | S n' => String c (repeat c n')
  end.

(** ["".join([c * 2 for c in s])] *)
Fixpoint double_each (s : string) : string :=
  match s with
  | EmptyString => EmptyString
  | String c s' => String c (String c (double_each s'))
  end.

(** The slice [s[i : i + n]]; like Python's it is cut at the end of [s]. *)
Definition slice (i n : nat) (s : string) : string := substring i n s.

(** The first [n] characters. *)
Fixpoint take (n : nat) (s : string) : string :=
  match n, s with
  | S n', String c s' => String c (take n' s')
  | _, _ => EmptyString
  end.

End Str.

(** ** [int(text, base)] for the bases 10 and 16, and integer formatting *)

Module PyInt.
Import Str.

(** The value of a digit character ([_PyLong_DigitValue]). *)
Definition digit_value (c : ascii) : option Z :=
  if between 48 57 c then Some (Z.of_N (code c) - 48)
  else if between 97 122 c then Some (Z.of_N (code c) - 87)
  else if between 65 90 c then Some (Z.of_N (code c) - 55)
  else None.

(** The white space [int] skips once the text is ASCII ([Py_ISSPACE]). *)
Definition is_c_space (c : ascii) : bool := between 9 13 c || (code c =? 32)%N.

(** Text with a character above U+007F is first rewritten: a space character
    becomes a blank, anything else (there is no decimal digit between U+007F
    and U+00FF) ends the text with a question mark. *)
Fixpoint transform (s : string) : string :=
  match s with
  | EmptyString => EmptyString
  | String c s' =>
      if (code c <? 127)%N then String c (transform s')
      else if is_space c then String " " (transform s')
      else String "?" EmptyString
  end.

Definition to_ascii (s : string) : string :=
  if Str.forallb (fun c => (code c <? 128)%N) s then s else transform s.

(** The digits of the number, single underscores allowed between them.
    [prev] tells that the last character read was an underscore, [seen] that
    a character was read. Returns the value, [seen] and the unread text. *)
Fixpoint scan (base : Z) (s : string) (prev seen : bool) (acc : Z)
  : result (Z * bool * string) :=
  let stop := if prev then Raise ValueError else Ok (acc, seen, s) in
  match s with
  | EmptyString => stop
  | String c s' =>
      if Ascii.eqb c "_" then
        if prev then Raise ValueError else scan base s' true true acc
      else
        match digit_value c with
        | Some d => if d <? base then scan base s' false true (acc * base + d) else stop
        | None => stop
        end
  end.

Definition skip_sign (s : string) : bool * string :=
  match s with
  | String "+" t => (false, t)
  | String "-" t => (true, t)
  | _ => (false, s)
  end.

(** The prefix [0x] or [0X] of base 16, and the one underscore allowed
    behind it. *)
Definition skip_prefix (base : Z) (s : string) : string :=
  if base =? 16 then
    match s with
    | String "0" (String x t) =>
        if Ascii.eqb x "x" || Ascii.eqb x "X" then
          match t with
          | String "_" t' => t'
          | _ => t
          end
        else s
    | _ => s
    end
  else s.

(** The number of digits that [scan] reads; the underscores between them do
    not count. *)
Fixpoint count_digits (base : Z) (s : string) : Z :=
  match s with
  | EmptyString => 0
  | String c s' =>
      if Ascii.eqb c "_" then count_digits base s'
      else
        match digit_value c with
        | Some d => if d <? base then 1 + count_digits base s' else 0
        | None => 0
        end
  end.

(** [sys.int_info.default_max_str_digits]: the most digits that are
    converted in a base that is not a power of two; more of them, leading
    zeros included, raise [ValueError]. *)
Definition max_str_digits : Z := 4300.

(** The bases the limit applies to: those that are not a power of two. *)
Definition limited (base : Z) : bool := negb (Z.land base (base - 1) =? 0).

(** [int(s, base)] *)
Definition parse (base : Z) (s : string) : result Z :=
  let s := lstrip is_c_space (to_ascii s) in
  let '(neg, s) := skip_sign s in
  let s := skip_prefix base s in
  match s with
  | String "_" _ => Raise ValueError
  | _ =>
      '(v, seen, rest) <- scan base s false false 0 ;;
      if seen then
        if limited base && (max_str_digits <? count_digits base s) then Raise ValueError
        else
          match lstrip is_c_space rest with
          | EmptyString => Ok (if neg then - v else v)
          | _ => Raise ValueError
          end
      else Raise ValueError
  end.

(** [int(s)] *)
Definition int (s : string) : result Z := parse 10 s.

(** [str(n)], also the replacement field [{n}] of an f-string, for a number
    of at most [max_str_digits] digits: the plugin and the script format
    clamped channels, angles, percentages and loop counters. *)
Definition str (n : Z) : string := DecimalString.NilZero.string_of_int (Z.to_int n).

(** The lower-case hexadecimal digits of a natural number. *)
Definition hex_digits (n : N) : string := HexadecimalString.NilZero.string_of_uint (N.to_hex_uint n).

(** The replacement field [{n:02x}]: sign, then the digits padded with
    zeros to a width of two characters, the sign included. *)
Definition format_02x (n : Z) : string :=
  if n <? 0 then "-" ++ hex_digits (Z.to_N (- n))
  else
    let d := hex_digits (Z.to_N n) in
    if (String.length d <? 2)%nat then "0" ++ d else d.

End PyInt.

(** ** The matcher of [re] on the constructs the plugin's patterns use

    A backtracking matcher in continuation-passing style: quantifiers are
    greedy, alternatives are tried from left to right, and the first
    complete match is the answer, as in Python's [re]. *)

Module Re.

Inductive regex : Type :=
| Eps                             (* the empty pattern *)
| Lit (c : ascii)                 (* one literal character *)
| Cls (p : ascii -> bool)         (* one character of a class *)
| Bos                             (* ^ *)
| Eos                             (* $ *)
| Seq (r1 r2 : regex)
| Alt (r1 r2 : regex)             (* r1|r2 *)
| Opt (r : regex)                 (* r? *)
| Star (p : ascii -> bool)        (* class* *)
| Plus (p : ascii -> bool)        (* class+ *)
| Rep (n : nat) (r : regex)       (* r{n} *)
| Grp (i : nat) (r : regex).      (* the capturing group number i *)

(** The text of the groups closed so far, the last closed first. *)
Definition caps : Type := list (nat * string).

Definition cont : Type := string -> caps -> option caps.

Definition or_else (a : option caps) (b : option caps) : option caps :=
  match a with
  | Some m => Some m
  | None => b
  end.

(** Greedy repetition of a class: take a character and go on if that leads
    to a match, otherwise stop here. *)
Fixpoint star (p : ascii -> bool) (k : cont) (s : string) (g : caps) : option caps :=
  match s with
  | String c s' => if p c then or_else (star p k s' g) (k s g) else k s g
  | EmptyString => k s g
  end.

(** [run whole r k s g]: match [r] at the suffix [s] of the subject [whole],
    then continue with [k]. *)
Fixpoint run (whole : string) (r : regex) (k : cont) (s : string) (g : caps)
  : option caps :=
  match r with
  | Eps => k s g
  | Lit c =>
      match s with
      | String c' s' => if Ascii.eqb c c' then k s' g else None
      | EmptyString => None
      end
  | Cls p =>
      match s with
      | String c' s' => if p c' then k s' g else None
      | EmptyString => None
      end
  | Bos => if (String.length s =? String.length whole)%nat then k s g else None
  | Eos =>
      match s with
      | EmptyString => k s g
      | String c EmptyString => if Ascii.eqb c "010" then k s g else None
      | _ => None
      end
  | Seq r1 r2 => run whole r1 (run whole r2 k) s g
  | Alt r1 r2 => or_else (run whole r1 k s g) (run whole r2 k s g)
  | Opt r' => or_else (run whole r' k s g) (k s g)
  | Star p => star p k s g
  | Plus p =>
      match s with
      | String c' s' => if p c' then star p k s' g else None
      | EmptyString => None
      end
  | Rep n r' =>
      (fix rep (n : nat) (k : cont) {struct n} : cont :=
         match n with
         | O => k
         | S n' => run whole r' (rep n' k)
         end) n k s g
  | Grp i r' =>
      run whole r'
        (fun s' g' => k s' ((i, Str.take (String.length s - String.length s') s) :: g'))
        s g
  end.

(** [re.match(r, s)]: a match that starts at the first character. *)
Definition rmatch (r : regex) (s : string) : option caps :=
  run s r (fun _ g => Some g) s [].

(** [m.group(i)] of a group that took part in the match. *)
Fixpoint group (i : nat) (m : caps) : string :=
  match m with
  | [] => EmptyString
  | (j, t) :: m' => if (i =? j)%nat then t else group i m'
  end.

(** A literal word. *)
Fixpoint word (s : string) : regex :=
  match s with
  | EmptyString => Eps
  | String c s' => Seq (Lit c) (word s')
  end.

Declare Scope re_scope.
Delimit Scope re_scope with re.
Infix "+>" := Seq (at level 60, right associativity) : re_scope.

Definition ws : regex := Star Str.is_space.       (* \s* *)
Definition num (i : nat) : regex := Grp i (Plus Str.is_digit).   (* (\d+) *)

End Re.

(** ** Floats: conversions from and to [int], and the remainder by 1.0 *)

Module PyFloat.

Local Open Scope float_scope.

(** The conversion of an [int] to a [float] ([PyLong_AsDouble]): the nearest
    float, ties to even; [OverflowError] when that is beyond the largest
    finite float.  A magnitude of 64 bits or more is first cut to its 63
    leading bits, the lowest of them set when a bit was cut off, so that the
    rounding of the primitive conversion is the rounding of the whole
    number. *)
Definition of_int (n : Z) : result float :=
  let a := Z.abs n in
  let x :=
    if (a <? 2 ^ 63)%Z then of_uint63 (Uint63.of_Z a)
    else
      let k := (Z.log2 a - 62)%Z in
      let sticky := if (Z.land a (Z.ones k) =? 0)%Z then 0%Z else 1%Z in
      Z.ldexp (of_uint63 (Uint63.of_Z (Z.lor (Z.shiftr a k) sticky))) k in
  if is_infinity x then Raise OverflowError
  else Ok (if (n <? 0)%Z then - x else x).

(** [n / d] for an [int] n and a [float] d. *)
Definition truediv (n : Z) (d : float) : result float :=
  x <- of_int n ;;
  if d =? 0 then Raise ZeroDivisionError else Ok (x / d).

(** [x / y] for two floats: a zero divisor raises [ZeroDivisionError]. *)
Definition div (x y : float) : result float :=
  if y =? 0 then Raise ZeroDivisionError else Ok (x / y).

(** [int(x)]: the integer part, towards zero; [ValueError] on a NaN and
    [OverflowError] on an infinity. *)
Definition to_int (x : float) : result Z :=
  match Prim2SF x with
  | S754_nan => Raise ValueError
  | S754_infinity _ => Raise OverflowError
  | S754_zero _ => Ok 0%Z
  | S754_finite s m e =>
      let a := Z.shiftl (Zpos m) e in
      Ok (if s then (- a)%Z else a)
  end.

(** C's [fmod(x, 1.0)]: the fractional part, with the sign of [x]. *)
Definition fmod1 (x : float) : float :=
  if abs x <? 1 then x
  else
    match Prim2SF x with
    | S754_finite s m e =>
        let f :=
          if (0 <=? e)%Z then 0
          else Z.ldexp (of_uint63 (Uint63.of_Z (Zpos m mod 2 ^ (- e)))) e in
        if s then - f else f
    | _ => nan
    end.

(** [x % 1.0] ([float_rem]): the result of [fmod], moved into [0, 1] when it
    is negative, and a positive zero when it is a zero. *)
Definition rem1 (x : float) : float :=
  let m := fmod1 x in
  if m =? 0 then 0
  else if m <? 0 then m + 1 else m.

End PyFloat.

(** ** The module [colorsys] of the Python standard library

    [rgb_to_hls], [hls_to_rgb] and [_v] as in CPython's Lib/colorsys.py.
    The saturation of a light colour divides by [2.0-maxc-minc], as the
    module does since the correction of gh-106498; the releases with
    [2.0-sumc] instead, such as 3.11.2, are covered by [saturation_3_11]
    below.  A division by a computed float goes through [PyFloat.div], which
    raises on a zero divisor; the divisions by the literals 2.0 and 6.0 and
    the remainder modulo 1.0 cannot raise. *)

Module Colorsys.

Local Open Scope float_scope.

Definition ONE_THIRD : float := 1 / 3.
Definition ONE_SIXTH : float := 1 / 6.
Definition TWO_THIRD : float := 2 / 3.

(** [max(a, b, c)] and [min(a, b, c)]: the first argument, replaced by each
    later one that is greater (smaller). *)
Definition max3 (a b c : float) : float :=
  let m := if a <? b then b else a in
  if m <? c then c else m.

Definition min3 (a b c : float) : float :=
  let m := if b <? a then b else a in
  if c <? m then c else m.

Definition rgb_to_hls (r g b : float) : result (float * float * float) :=
  let maxc := max3 r g b in
  let minc := min3 r g b in
  let sumc := maxc + minc in
  let rangec := maxc - minc in
  let l := sumc / 2 in
  if minc =? maxc then Ok (0, l, 0)
  else
    s <- (if l <=? 0.5 then PyFloat.div rangec sumc
          else PyFloat.div rangec (2 - maxc - minc)) ;;
    rc <- PyFloat.div (maxc - r) rangec ;;
    gc <- PyFloat.div (maxc - g) rangec ;;
    bc <- PyFloat.div (maxc - b) rangec ;;
    let h :=
      if r =? maxc then bc - gc
      else if g =? maxc then 2 + rc - bc
      else 4 + gc - rc in
    Ok (PyFloat.rem1 (h / 6), l, s).

Definition _v (m1 m2 hue : float) : float :=
  let hue := PyFloat.rem1 hue in
  if hue <? ONE_SIXTH then m1 + (m2 - m1) * hue * 6
  else if hue <? 0.5 then m2
  else if hue <? TWO_THIRD then m1 + (m2 - m1) * (TWO_THIRD - hue) * 6
  else m1.

Definition hls_to_rgb (h l s : float) : float * float * float :=
  if s =? 0 then (l, l, l)
  else
    let m2 := if l <=? 0.5 then l * (1 + s) else l + s - l * s in
    let m1 := 2 * l - m2 in
    (_v m1 m2 (h + ONE_THIRD), _v m1 m2 h, _v m1 m2 (h - ONE_THIRD)).

End Colorsys.

(** ** The plugin: color.py *)

Module Color.
Import Re.

Definition rgb : Type := (Z * Z * Z)%type.

(** [hex_to_rgb(hex_color)] *)
Definition hex_to_rgb (hex_color : string) : result rgb :=
  let hex_color := Str.lstrip (Ascii.eqb "#") hex_color in
  let hex_color :=
    if (String.length hex_color =? 3)%nat then Str.double_each hex_color
    else hex_color in
  r <- PyInt.parse 16 (Str.slice 0 2 hex_color) ;;
  g <- PyInt.parse 16 (Str.slice 2 2 hex_color) ;;
  b <- PyInt.parse 16 (Str.slice 4 2 hex_color) ;;
  Ok (r, g, b).

(** [rgb_to_hex(r, g, b)] *)
Definition rgb_to_hex (r g b : Z) : string :=
  "#" ++ PyInt.format_02x r ++ PyInt.format_02x g ++ PyInt.format_02x b.

(** [rgb_to_hsl(r, g, b)] *)
Definition rgb_to_hsl (r g b : Z) : result (Z * Z * Z) :=
  r <- PyFloat.truediv r 255 ;;
  g <- PyFloat.truediv g 255 ;;
  b <- PyFloat.truediv b 255 ;;
  '(h, l, s) <- Colorsys.rgb_to_hls r g b ;;
  h' <- PyFloat.to_int (h * 360) ;;
  s' <- PyFloat.to_int (s * 100) ;;
  l' <- PyFloat.to_int (l * 100) ;;
  Ok (h', s', l').

(** [hsl_to_rgb_tuple(h, s, l)] *)
Definition hsl_to_rgb_tuple (h s l : Z) : result rgb :=
  h <- PyFloat.truediv h 360 ;;
  s <- PyFloat.truediv s 100 ;;
  l <- PyFloat.truediv l 100 ;;
  let '(r, g, b) := Colorsys.hls_to_rgb h l s in
  r' <- PyFloat.to_int (r * 255) ;;
  g' <- PyFloat.to_int (g * 255) ;;
  b' <- PyFloat.to_int (b * 255) ;;
  Ok (r', g', b').

(** The four patterns of [parse_color]. *)

(** [^#?([0-9a-f]{3}|[0-9a-f]{6})$] *)
Definition hex_re : regex :=
  (Bos +> Opt (Lit "#")
   +> Grp 1 (Alt (Rep 3 (Cls Str.is_lower_hex)) (Rep 6 (Cls Str.is_lower_hex)))
   +> Eos)%re.

(** [(\d+)\s*,\s*(\d+)\s*,\s*(\d+)] *)
Definition comma_re : regex :=
  (num 1 +> ws +> Lit "," +> ws +> num 2 +> ws +> Lit "," +> ws +> num 3)%re.

(** [rgb\s*\(\s*(\d+)\s*,\s*(\d+)\s*,\s*(\d+)\s*\)] *)
Definition rgb_re : regex :=
  (word "rgb" +> ws +> Lit "(" +> ws
   +> num 1 +> ws +> Lit "," +> ws
   +> num 2 +> ws +> Lit "," +> ws
   +> num 3 +> ws +> Lit ")")%re.

(** [hsl\s*\(\s*(\d+)\s*,\s*(\d+)%?\s*,\s*(\d+)%?\s*\)] *)
Definition hsl_re : regex :=
  (word "hsl" +> ws +> Lit "(" +> ws
   +> num 1 +> ws +> Lit "," +> ws
   +> num 2 +> Opt (Lit "%") +> ws +> Lit "," +> ws
   +> num 3 +> Opt (Lit "%") +> ws +> Lit ")")%re.

(** [map(int, m.groups())] for a match with three groups *)
Definition int_groups (m : caps) : result (Z * Z * Z) :=
  a <- PyInt.int (group 1 m) ;;
  b <- PyInt.int (group 2 m) ;;
  c <- PyInt.int (group 3 m) ;;
  Ok (a, b, c).

(** What [parse_color] returns: the tuple of the format name and the three
    channels, or [None]. *)
Definition parsed : Type := option (string * Z * Z * Z).

(** [parse_color(color_str)] *)
Definition parse_color (color_str : string) : result parsed :=
  let color_str := Str.lower (Str.strip color_str) in
  match rmatch hex_re color_str with
  | Some hex_match =>
      '(r, g, b) <- hex_to_rgb (group 1 hex_match) ;;
      Ok (Some ("hex", r, g, b))
  | None =>
  match rmatch rgb_re color_str with
  | Some rgb_match =>
      '(r, g, b) <- int_groups rgb_match ;;
      Ok (Some ("rgb", r, g, b))
  | None =>
  match rmatch comma_re color_str with
  | Some comma_match =>
      '(r, g, b) <- int_groups comma_match ;;
      Ok (Some ("rgb", r, g, b))
  | None =>
  match rmatch hsl_re color_str with
  | Some hsl_match =>
      '(h, s, l) <- int_groups hsl_match ;;
      '(r, g, b) <- hsl_to_rgb_tuple h s l ;;
      Ok (Some ("hsl", r, g, b))
  | None => Ok None
  end end end end.

(** One record of the result list. *)
Record entry : Type := mk_entry {
  title : string;
  subtitle : string;
  command : string
}.

Definition preview : string := "█████".

(** [max(0, min(255, x))] *)
Definition clamp (x : Z) : Z := Z.max 0 (Z.min 255 x).

(** The command that copies [text] and announces [what]. *)
Definition copy_command (text what : string) : string :=
  "echo -n '" ++ text ++ "' | wl-copy && notify-send 'Color Copied' '" ++ what ++ "'".

(** [generate_color_results(r, g, b, original_format)] *)
Definition generate_color_results (r g b : Z) (original_format : string)
  : result (list entry) :=
  let r := clamp r in
  let g := clamp g in
  let b := clamp b in
  let hex_color := Str.upper (rgb_to_hex r g b) in
  '(h, s, l) <- rgb_to_hsl r g b ;;
  let rgb_str :=
    "rgb(" ++ PyInt.str r ++ ", " ++ PyInt.str g ++ ", " ++ PyInt.str b ++ ")" in
  let hsl_str :=
    "hsl(" ++ PyInt.str h ++ ", " ++ PyInt.str s ++ "%, " ++ PyInt.str l ++ "%)" in
  let css_var := "--color: " ++ hex_color ++ ";" in
  let tailwind_hint := "Use hex " ++ hex_color ++ " in Tailwind" in
  Ok [ mk_entry (preview ++ "  " ++ hex_color)
         "Hex Color • Click to copy" (copy_command hex_color hex_color);
       mk_entry (preview ++ "  " ++ rgb_str)
         "RGB Color • Click to copy" (copy_command rgb_str rgb_str);
       mk_entry (preview ++ "  " ++ hsl_str)
         "HSL Color • Click to copy" (copy_command hsl_str hsl_str);
       mk_entry (preview ++ "  " ++ css_var)
         "CSS Variable • Click to copy" (copy_command css_var "CSS Variable");
       mk_entry (preview ++ "  " ++ tailwind_hint)
         "Add to tailwind.config.js colors" (copy_command hex_color "For Tailwind") ].

(** [main()], up to the dictionary [output] that it serialises and prints:
    the list under its key "results".  [argv] is [sys.argv]. *)
Definition main_output (argv : list string) : result (list entry) :=
  let query :=
    match argv with
    | _ :: query :: _ => query
    | _ => ""
    end in
  match query with
  | EmptyString =>
      Ok [ mk_entry "Enter a color..."
             "Examples: #FF5733, rgb(255,87,51), hsl(9,100%,60%)"
             "echo 'Enter a color' | wl-copy" ]
  | _ =>
      parsed <- parse_color query ;;
      match parsed with
      | Some (format_type, r, g, b) => generate_color_results r g b format_type
      | None =>
          Ok [ mk_entry "Invalid color format"
                 ("Could not parse: " ++ query)
                 "echo 'Invalid color' | wl-copy";
               mk_entry "Supported formats:"
                 "#FF5733, rgb(255,87,51), hsl(9,100%,60%)"
                 "echo 'See examples' | wl-copy" ]
      end
  end.

End Color.

(** ** The script scripts/measure_latency.py

    [measure_search_latency] only prints; it is modelled by the list of the
    lines it prints. *)

Module Latency.

Definition test_queries : list (string * string) :=
  [ ("firefox", "App search");
    ("config.txt", "File search (triggers index)");
    ("~/Documents/test", "Path search") ].

(** The loop over the characters of a query: [i] is the index of the next
    character, [cumulative] what was typed before it, [rest] what is left. *)
Fixpoint keystrokes (i : nat) (cumulative rest : string) : list string :=
  match rest with
  | EmptyString => []
  | String char rest' =>
      let cumulative := cumulative ++ String char EmptyString in
      ("  Keystroke " ++ PyInt.str (Z.of_nat i + 1) ++ ": '" ++ cumulative ++ "'")
        :: keystrokes (S i) cumulative rest'
  end.

(** The body of the loop over the queries. *)
Definition query_lines (q : string * string) : list string :=
  let '(full_query, description) := q in
  ("Testing: " ++ description ++ " ('" ++ full_query ++ "')")
    :: keystrokes 0 "" full_query ++ [""].

Definition measure_search_latency : list string :=
  [ "🔍 Native Launcher - Input Latency Quick Test";
    Str.repeat "=" 50;
    "";
    "📝 Simulating typing queries...";
    "" ]
  ++ List.flat_map query_lines test_queries
  ++ [ Str.repeat "=" 50;
       "";
       "To measure actual latency, run:";
       "  cargo test --release --test performance_tests -- --nocapture";
       "";
       "Or run benchmarks with:";
       "  cargo bench --bench input_latency_bench";
       "" ].

End Latency.

(** * Properties *)

(** ** Finite enumerations *)

Definition all_ascii : list ascii := List.map ascii_of_nat (seq 0 256).

Definition range256 : list Z := List.map Z.of_nat (seq 0 256).

Lemma in_all_ascii (c : ascii) : In c all_ascii.
Proof.
  unfold all_ascii. rewrite <- (ascii_nat_embedding c).
  apply in_map, in_seq. pose proof (nat_ascii_bounded c). lia.
Qed.

Lemma ascii_forall (P : ascii -> bool) :
  List.forallb P all_ascii = true -> forall c, P c = true.
Proof.
  intros H c. rewrite forallb_forall in H. apply H, in_all_ascii.
Qed.

Lemma in_range256 (z : Z) : 0 <= z < 256 -> In z range256.
Proof.
  intros H. unfold range256. rewrite <- (Z2Nat.id z) by lia.
  apply in_map, in_seq. lia.
Qed.

Lemma range256_forall (P : Z -> bool) :
  List.forallb P range256 = true -> forall z, 0 <= z < 256 -> P z = true.
Proof.
  intros H z Hz. rewrite forallb_forall in H. apply H, in_range256, Hz.
Qed.

(** ** Facts on the result monad *)

Lemma bind_ok {A B : Type} (m : result A) (f : A -> result B) (a : A) :
  m = Ok a -> bind m f = f a.
Proof. intros ->. reflexivity. Qed.

Lemma bind_raise {A B : Type} (m : result A) (f : A -> result B) (e : exn) :
  m = Raise e -> bind m f = Raise e.
Proof. intros ->. reflexivity. Qed.

(** ** Formatting and parsing two hexadecimal digits *)

Definition two_digits_ok (z : Z) : bool :=
  match PyInt.format_02x z with
  | String a (String b EmptyString) =>
      Str.is_lower_hex a && Str.is_lower_hex b &&
      match PyInt.parse 16 (String a (String b EmptyString)) with
      | Ok v => v =? z
      | Raise _ => false
      end
  | _ => false
  end.

Lemma two_digits_all : List.forallb two_digits_ok range256 = true.
Proof. vm_compute. reflexivity. Qed.

Lemma format_02x_byte (z : Z) :
  0 <= z <= 255 ->
  exists a b,
    PyInt.format_02x z = String a (String b EmptyString) /\
    Str.is_lower_hex a = true /\ Str.is_lower_hex b = true /\
    PyInt.parse 16 (String a (String b EmptyString)) = Ok z.
Proof.
  intros Hz.
  assert (H : two_digits_ok z = true)
    by (apply (range256_forall _ two_digits_all); lia).
  unfold two_digits_ok in H.
  destruct (PyInt.format_02x z) as [|a [|b [|? ?]]]; try discriminate.
  exists a, b.
  destruct (PyInt.parse 16 (String a (String b EmptyString))) as [v|e] eqn:E;
    rewrite ?andb_true_iff in H; [|intuition discriminate].
  destruct H as [[Ha Hb] Hv]. apply Z.eqb_eq in Hv. subst v. auto.
Qed.

Lemma lower_hex_not_hash (c : ascii) :
  Str.is_lower_hex c = true -> Ascii.eqb "#" c = false.
Proof.
  intros H.
  assert (K : implb (Str.is_lower_hex c) (negb (Ascii.eqb "#" c)) = true).
  { apply (ascii_forall (fun c => implb (Str.is_lower_hex c) (negb (Ascii.eqb "#" c)))).
    vm_compute. reflexivity. }
  rewrite H in K. simpl in K. now apply negb_true_iff in K.
Qed.

(** ** The hexadecimal round trip *)

(** C3. For all r, g, b in [0,255], [hex_to_rgb] applied to
    [rgb_to_hex r g b] returns exactly (r, g, b). *)
Theorem hex_roundtrip (r g b : Z) :
  0 <= r <= 255 -> 0 <= g <= 255 -> 0 <= b <= 255 ->
  Color.hex_to_rgb (Color.rgb_to_hex r g b) = Ok (r, g, b).
Proof.
  intros Hr Hg Hb.
  destruct (format_02x_byte r Hr) as (r1 & r2 & Er & Hr1 & _ & Pr).
  destruct (format_02x_byte g Hg) as (g1 & g2 & Eg & _ & _ & Pg).
  destruct (format_02x_byte b Hb) as (b1 & b2 & Eb & _ & _ & Pb).
  unfold Color.hex_to_rgb, Color.rgb_to_hex. rewrite Er, Eg, Eb.
  cbn [append Str.lstrip].
  change (Ascii.eqb "#" "#") with true. cbv iota.
  rewrite (lower_hex_not_hash r1 Hr1).
  cbn [String.length Nat.eqb Str.slice substring].
  rewrite Pr, Pg, Pb. reflexivity.
Qed.

Lemma hex_roundtrip_witness :
  Color.hex_to_rgb (Color.rgb_to_hex 255 87 51) = Ok (255, 87, 51).
Proof. apply hex_roundtrip; lia. Defined.

(** ** The domain of [hex_to_rgb] *)

(** The text is three or six hexadecimal digits. *)
Definition hex_3_or_6 (t : string) : bool :=
  ((String.length t =? 3)%nat || (String.length t =? 6)%nat) && Str.forallb Str.is_hex t.

Definition byte_result (m : result Z) : bool :=
  match m with
  | Ok v => (0 <=? v) && (v <=? 255)
  | Raise _ => false
  end.

(** A doubled character is read as a number exactly when it is a
    hexadecimal digit. *)
Definition doubled_ok (c : ascii) : bool :=
  match PyInt.parse 16 (String c (String c EmptyString)) with
  | Ok v => Str.is_hex c && (0 <=? v) && (v <=? 255)
  | Raise _ => negb (Str.is_hex c)
  end.

Lemma doubled_all : List.forallb doubled_ok all_ascii = true.
Proof. vm_compute. reflexivity. Qed.

Definition hex_pair_ok (a : ascii) : bool :=
  if Str.is_hex a then
    List.forallb
      (fun b =>
         if Str.is_hex b
         then byte_result (PyInt.parse 16 (String a (String b EmptyString)))
         else true)
      all_ascii
  else true.

Lemma hex_pair_all : List.forallb hex_pair_ok all_ascii = true.
Proof. vm_compute. reflexivity. Qed.

Lemma parse_hex_pair (a b : ascii) :
  Str.is_hex a = true -> Str.is_hex b = true ->
  exists v, PyInt.parse 16 (String a (String b EmptyString)) = Ok v /\ 0 <= v <= 255.
Proof.
  intros Ha Hb.
  pose proof (ascii_forall _ hex_pair_all a) as H. unfold hex_pair_ok in H.
  rewrite Ha, forallb_forall in H. specialize (H b (in_all_ascii b)).
  rewrite Hb in H.
  destruct (PyInt.parse 16 (String a (String b EmptyString))) as [v|]; [|discriminate].
  exists v. simpl in H. split; [reflexivity|lia].
Qed.

Lemma parse_doubled (c : ascii) :
  if Str.is_hex c
  then exists v, PyInt.parse 16 (String c (String c EmptyString)) = Ok v /\ 0 <= v <= 255
  else PyInt.parse 16 (String c (String c EmptyString)) = Raise ValueError.
Proof.
  pose proof (ascii_forall _ doubled_all c) as H. unfold doubled_ok in H.
  destruct (PyInt.parse 16 (String c (String c EmptyString))) as [v|e] eqn:E.
  - destruct (Str.is_hex c); [|discriminate]. exists v. simpl in H. split; [reflexivity|lia].
  - destruct (Str.is_hex c); [discriminate|].
    revert E. clear H. revert c e.
    assert (K : forall c,
               match PyInt.parse 16 (String c (String c EmptyString)) with
               | Raise ValueError | Ok _ => true
               | Raise _ => false
               end = true).
    { apply ascii_forall. vm_compute. reflexivity. }
    intros c e E. specialize (K c). rewrite E in K. destruct e; congruence.
Qed.



Lemma parse_empty : PyInt.parse 16 EmptyString = Raise ValueError.
Proof. reflexivity. Qed.


Lemma bind_ok_inv {A B : Type} (m : result A) (f : A -> result B) (b : B) :
  bind m f = Ok b -> exists a, m = Ok a /\ f a = Ok b.
Proof. destruct m as [a|e]; simpl; [eauto | discriminate]. Qed.


Lemma hex_to_rgb_accepts (s : string) :
  hex_3_or_6 (Str.lstrip (Ascii.eqb "#") s) = true ->
  exists r g b, Color.hex_to_rgb s = Ok (r, g, b) /\
                0 <= r <= 255 /\ 0 <= g <= 255 /\ 0 <= b <= 255.
Proof.
  intros H. unfold Color.hex_to_rgb. unfold hex_3_or_6 in H.
  destruct (Str.lstrip (Ascii.eqb "#") s) as [|a [|b [|c [|d [|e [|f [|x ?]]]]]]];
    try discriminate H;
    cbn [String.length Nat.eqb orb andb Str.forallb] in H;
    rewrite ?andb_true_iff in H.
  - destruct H as (Ha & Hb & Hc & _).
    cbn [String.length Nat.eqb Str.double_each Str.slice substring].
    pose proof (parse_doubled a) as Pa. rewrite Ha in Pa. destruct Pa as (va & -> & ?).
    pose proof (parse_doubled b) as Pb. rewrite Hb in Pb. destruct Pb as (vb & -> & ?).
    pose proof (parse_doubled c) as Pc. rewrite Hc in Pc. destruct Pc as (vc & -> & ?).
    exists va, vb, vc. auto.
  - destruct H as (Ha & Hb & Hc & Hd & He & Hf & _).
    cbn [String.length Nat.eqb Str.slice substring].
    destruct (parse_hex_pair a b Ha Hb) as (v1 & -> & ?).
    destruct (parse_hex_pair c d Hc Hd) as (v2 & -> & ?).
    destruct (parse_hex_pair e f He Hf) as (v3 & -> & ?).
    exists v1, v2, v3. auto.
Qed.




(** ** Normalisation of the input: [strip] and [lower] *)

Section Strip.

Variable p : ascii -> bool.

Lemma lstrip_head (s : string) (c : ascii) (u : string) :
  Str.lstrip p s = String c u -> p c = false.
Proof.
  induction s as [|d s IH]; simpl; [discriminate|].
  destruct (p d) eqn:E; [exact IH | intros [= <- _]; exact E].
Qed.

Lemma lstrip_fixed (c : ascii) (u : string) :
  p c = false -> Str.lstrip p (String c u) = String c u.
Proof. intros H. simpl. now rewrite H. Qed.

Lemma rstrip_head (c : ascii) (u : string) :
  p c = false -> exists v, Str.rstrip p (String c u) = String c v.
Proof.
  intros H. simpl. destruct (Str.rstrip p u); [rewrite H|]; eauto.
Qed.

Lemma rstrip_idem (s : string) :
  Str.rstrip p (Str.rstrip p s) = Str.rstrip p s.
Proof.
  induction s as [|c s IH]; [reflexivity|].
  simpl. destruct (Str.rstrip p s) as [|d r] eqn:E.
  - destruct (p c) eqn:Ec; [reflexivity|]. simpl. now rewrite Ec.
  - change (Str.rstrip p (String c (String d r)))
      with (match Str.rstrip p (String d r) with
            | EmptyString => if p c then EmptyString else String c EmptyString
            | String a t => String c (String a t)
            end).
    now rewrite IH.
Qed.

Lemma strip_with_idem (s : string) :
  Str.rstrip p (Str.lstrip p (Str.rstrip p (Str.lstrip p s))) =
  Str.rstrip p (Str.lstrip p s).
Proof.
  destruct (Str.lstrip p s) as [|c u] eqn:E; [reflexivity|].
  pose proof (lstrip_head _ _ _ E) as Hc.
  destruct (rstrip_head c u Hc) as (v & Hv).
  rewrite Hv, (lstrip_fixed c v Hc), <- Hv. apply rstrip_idem.
Qed.

Variable f : ascii -> ascii.
Hypothesis f_class : forall c, p (f c) = p c.

Lemma lstrip_map (s : string) :
  Str.lstrip p (Str.map f s) = Str.map f (Str.lstrip p s).
Proof.
  induction s as [|c s IH]; [reflexivity|].
  simpl. rewrite f_class. now destruct (p c).
Qed.

Lemma rstrip_map (s : string) :
  Str.rstrip p (Str.map f s) = Str.map f (Str.rstrip p s).
Proof.
  induction s as [|c s IH]; [reflexivity|].
  simpl. rewrite IH, f_class.
  destruct (Str.rstrip p s); simpl; [now destruct (p c) | reflexivity].
Qed.

End Strip.

Lemma lower_char_space (c : ascii) : Str.is_space (Str.lower_char c) = Str.is_space c.
Proof.
  apply eqb_prop.
  apply (ascii_forall (fun c => Bool.eqb (Str.is_space (Str.lower_char c)) (Str.is_space c))).
  vm_compute. reflexivity.
Qed.

Lemma lower_char_idem (c : ascii) : Str.lower_char (Str.lower_char c) = Str.lower_char c.
Proof.
  apply Ascii.eqb_eq.
  apply (ascii_forall (fun c => Ascii.eqb (Str.lower_char (Str.lower_char c)) (Str.lower_char c))).
  vm_compute. reflexivity.
Qed.

Lemma lower_idem (s : string) : Str.lower (Str.lower s) = Str.lower s.
Proof.
  unfold Str.lower. induction s as [|c s IH]; simpl; [reflexivity|].
  now rewrite lower_char_idem, IH.
Qed.

Lemma strip_lower (s : string) : Str.strip (Str.lower s) = Str.lower (Str.strip s).
Proof.
  unfold Str.strip, Str.lower.
  rewrite (lstrip_map _ _ lower_char_space), (rstrip_map _ _ lower_char_space).
  reflexivity.
Qed.

Lemma strip_idem (s : string) : Str.strip (Str.strip s) = Str.strip s.
Proof. apply strip_with_idem. Qed.

Lemma normalise_idem (s : string) :
  Str.lower (Str.strip (Str.lower (Str.strip s))) = Str.lower (Str.strip s).
Proof. now rewrite strip_lower, strip_idem, lower_idem. Qed.

(** C10. [parse_color] normalises its own input: its result on a string is
    its result on the string stripped of surrounding white space and
    lower-cased; upper-case and padded inputs are recognised like their
    trimmed lower-case forms. *)
Theorem parse_color_normalises :
  (forall s, Color.parse_color s = Color.parse_color (Str.lower (Str.strip s))) /\
  Color.parse_color "#FF5733" = Color.parse_color "#ff5733" /\
  Color.parse_color "#FF5733" = Ok (Some ("hex", 255, 87, 51)) /\
  Color.parse_color "  RGB(1,2,3) " = Color.parse_color "rgb(1,2,3)" /\
  Color.parse_color "  RGB(1,2,3) " = Ok (Some ("rgb", 1, 2, 3)).
Proof.
  split; [|repeat split; reflexivity].
  intros s. unfold Color.parse_color. now rewrite normalise_idem.
Qed.

(** ** What a successful run of the matcher has matched *)

(** [matches whole r s g s' g']: the pattern [r] matches the text between
    the suffixes [s] and [s'] of [whole] and turns the groups [g] into
    [g']. *)
Inductive matches (whole : string)
  : Re.regex -> string -> Re.caps -> string -> Re.caps -> Prop :=
| m_eps s g : matches whole Re.Eps s g s g
| m_lit c s g : matches whole (Re.Lit c) (String c s) g s g
| m_cls (p : ascii -> bool) c s g :
    p c = true -> matches whole (Re.Cls p) (String c s) g s g
| m_bos s g :
    String.length s = String.length whole -> matches whole Re.Bos s g s g
| m_eos s g :
    s = EmptyString \/ s = String "010" EmptyString -> matches whole Re.Eos s g s g
| m_seq r1 r2 s g s1 g1 s2 g2 :
    matches whole r1 s g s1 g1 -> matches whole r2 s1 g1 s2 g2 ->
    matches whole (Re.Seq r1 r2) s g s2 g2
| m_alt_l r1 r2 s g s' g' :
    matches whole r1 s g s' g' -> matches whole (Re.Alt r1 r2) s g s' g'
| m_alt_r r1 r2 s g s' g' :
    matches whole r2 s g s' g' -> matches whole (Re.Alt r1 r2) s g s' g'
| m_opt_some r s g s' g' :
    matches whole r s g s' g' -> matches whole (Re.Opt r) s g s' g'
| m_opt_none r s g : matches whole (Re.Opt r) s g s g
| m_star (p : ascii -> bool) w s g :
    Str.forallb p w = true -> matches whole (Re.Star p) (w ++ s) g s g
| m_plus (p : ascii -> bool) c w s g :
    p c = true -> Str.forallb p w = true ->
    matches whole (Re.Plus p) (String c (w ++ s)) g s g
| m_rep_0 r s g : matches whole (Re.Rep 0 r) s g s g
| m_rep_S n r s g s1 g1 s2 g2 :
    matches whole r s g s1 g1 -> matches whole (Re.Rep n r) s1 g1 s2 g2 ->
    matches whole (Re.Rep (S n) r) s g s2 g2
| m_grp i r s g s' g' :
    matches whole r s g s' g' ->
    matches whole (Re.Grp i r) s g s'
      ((i, Str.take (String.length s - String.length s') s) :: g').

Lemma or_else_some (a b : option Re.caps) (m : Re.caps) :
  Re.or_else a b = Some m -> a = Some m \/ b = Some m.
Proof. destruct a; simpl; auto. Qed.

Lemma star_sound (p : ascii -> bool) (k : Re.cont) (s : string) (g m : Re.caps) :
  Re.star p k s g = Some m ->
  exists w s', s = w ++ s' /\ Str.forallb p w = true /\ k s' g = Some m.
Proof.
  induction s as [|c s IH]; simpl.
  - intros H. exists EmptyString, EmptyString. auto.
  - destruct (p c) eqn:Ec.
    + intros H. apply or_else_some in H. destruct H as [H|H].
      * destruct (IH H) as (w & s' & -> & Hw & Hk).
        exists (String c w), s'. simpl. rewrite Ec, Hw. auto.
      * exists EmptyString, (String c s). auto.
    + intros H. exists EmptyString, (String c s). auto.
Qed.

(** Soundness of the matcher: a run that succeeds has matched the pattern
    on some prefix, and the continuation has succeeded behind it. *)
Lemma run_sound (whole : string) (r : Re.regex) :
  forall (k : Re.cont) (s : string) (g m : Re.caps),
    Re.run whole r k s g = Some m ->
    exists s' g', matches whole r s g s' g' /\ k s' g' = Some m.
Proof.
  induction r as [ |c|p| | |r1 IH1 r2 IH2|r1 IH1 r2 IH2|r IH|p|p|n r IH|i r IH];
    intros k s g m H; simpl in H.
  - eauto using matches.
  - destruct s as [|c' s]; [discriminate|].
    destruct (Ascii.eqb_spec c c') as [<-|]; [|discriminate]. eauto using matches.
  - destruct s as [|c' s]; [discriminate|].
    destruct (p c') eqn:E; [|discriminate]. eauto using matches.
  - destruct (Nat.eqb_spec (String.length s) (String.length whole)); [|discriminate].
    eauto using matches.
  - destruct s as [|c [|? ?]]; try discriminate.
    + eauto 8 using matches.
    + destruct (Ascii.eqb_spec c "010") as [->|]; [|discriminate]. eauto 8 using matches.
  - apply IH1 in H. destruct H as (s1 & g1 & M1 & H).
    apply IH2 in H. destruct H as (s2 & g2 & M2 & H). eauto using matches.
  - apply or_else_some in H. destruct H as [H|H].
    + apply IH1 in H. destruct H as (s' & g' & M & H). eauto using matches.
    + apply IH2 in H. destruct H as (s' & g' & M & H). eauto using matches.
  - apply or_else_some in H. destruct H as [H|H].
    + apply IH in H. destruct H as (s' & g' & M & H). eauto using matches.
    + eauto using matches.
  - apply star_sound in H. destruct H as (w & s' & -> & Hw & H). eauto using matches.
  - destruct s as [|c s]; [discriminate|].
    destruct (p c) eqn:E; [|discriminate].
    apply star_sound in H. destruct H as (w & s' & -> & Hw & H). eauto using matches.
  - revert k s g H. induction n as [|n IHn]; intros k s g H.
    + eauto using matches.
    + apply IH in H. destruct H as (s1 & g1 & M1 & H).
      apply IHn in H. destruct H as (s2 & g2 & M2 & H). eauto using matches.
  - apply IH in H. destruct H as (s' & g' & M & H). eauto using matches.
Qed.

Lemma rmatch_sound (r : Re.regex) (s : string) (m : Re.caps) :
  Re.rmatch r s = Some m -> exists s', matches s r s [] s' m.
Proof.
  intros H. apply run_sound in H. destruct H as (s' & g' & M & [= <-]). eauto.
Qed.

(** ** Strings: concatenation *)

Lemma app_length (s t : string) :
  String.length (s ++ t) = (String.length s + String.length t)%nat.
Proof. induction s as [|c s IH]; simpl; [reflexivity | now rewrite IH]. Qed.

Lemma app_assoc (s t u : string) : (s ++ t) ++ u = s ++ t ++ u.
Proof. induction s as [|c s IH]; simpl; [reflexivity | now rewrite IH]. Qed.

Lemma app_empty_r (s : string) : s ++ "" = s.
Proof. induction s as [|c s IH]; simpl; [reflexivity | now rewrite IH]. Qed.

Lemma take_app (w s : string) :
  Str.take (String.length (w ++ s) - String.length s) (w ++ s) = w.
Proof.
  rewrite app_length.
  replace (String.length w + String.length s - String.length s)%nat
    with (String.length w) by lia.
  induction w as [|c w IH]; simpl.
  - now destruct s.
  - now rewrite IH.
Qed.

Lemma forallb_app (p : ascii -> bool) (s t : string) :
  Str.forallb p (s ++ t) = Str.forallb p s && Str.forallb p t.
Proof.
  induction s as [|c s IH]; simpl; [reflexivity|].
  now rewrite IH, andb_assoc.
Qed.

Lemma forallb_impl (p q : ascii -> bool) (s : string) :
  (forall c, p c = true -> q c = true) ->
  Str.forallb p s = true -> Str.forallb q s = true.
Proof.
  intros Hpq. induction s as [|c s IH]; simpl; [reflexivity|].
  rewrite !andb_true_iff. intros [Hc Hs]. auto.
Qed.

(** ** Decimal numerals *)

(** A non-empty string of decimal digits. *)
Definition is_number (d : string) : bool :=
  match d with
  | EmptyString => false
  | _ => Str.forallb Str.is_digit d
  end.

(** The number a string of decimal digits denotes. *)
Fixpoint digits_value (acc : Z) (d : string) : Z :=
  match d with
  | EmptyString => acc
  | String c d' => digits_value (acc * 10 + (Z.of_N (Str.code c) - 48)) d'
  end.

Definition decimal_value (d : string) : Z := digits_value 0 d.

Definition decimal_digits : list ascii :=
  ["0"; "1"; "2"; "3"; "4"; "5"; "6"; "7"; "8"; "9"]%char.

Lemma digit_cases (c : ascii) : Str.is_digit c = true -> In c decimal_digits.
Proof.
  intros H.
  assert (K : implb (Str.is_digit c) (existsb (Ascii.eqb c) decimal_digits) = true).
  { apply (ascii_forall
             (fun c => implb (Str.is_digit c) (existsb (Ascii.eqb c) decimal_digits))).
    vm_compute. reflexivity. }
  rewrite H in K. change (existsb (Ascii.eqb c) decimal_digits = true) in K.
  apply existsb_exists in K.
  destruct K as (x & Hx & E). apply Ascii.eqb_eq in E. now subst.
Qed.

Ltac digit_cases c H :=
  let K := fresh in
  pose proof (digit_cases c H) as K; clear H;
  repeat (destruct K as [<-|K]; [|]); [..|destruct K].

Lemma scan_digits (d : string) :
  forall (seen : bool) (acc : Z),
    Str.forallb Str.is_digit d = true ->
    PyInt.scan 10 d false seen acc =
    Ok (digits_value acc d, match d with EmptyString => seen | _ => true end, EmptyString).
Proof.
  induction d as [|c d IH]; intros seen acc H; [reflexivity|].
  simpl in H. apply andb_true_iff in H. destruct H as [Hc Hd].
  cbn [digits_value].
  digit_cases c Hc; simpl; rewrite (IH true _ Hd); now destruct d.
Qed.

Lemma digits_are_ascii (d : string) :
  Str.forallb Str.is_digit d = true ->
  Str.forallb (fun c => (Str.code c <? 128)%N) d = true.
Proof.
  apply forallb_impl. intros c Hc. digit_cases c Hc; reflexivity.
Qed.

Lemma count_digits_number (d : string) :
  Str.forallb Str.is_digit d = true ->
  PyInt.count_digits 10 d = Z.of_nat (String.length d).
Proof.
  induction d as [|c d IH]; intros H; [reflexivity|].
  simpl in H. apply andb_true_iff in H. destruct H as [Hc Hd].
  cbn [String.length]. rewrite Nat2Z.inj_succ, <- (IH Hd).
  digit_cases c Hc;
    match goal with
    | |- PyInt.count_digits 10 (String ?c d) = _ =>
        change (PyInt.count_digits 10 (String c d)) with (1 + PyInt.count_digits 10 d)
    end; lia.
Qed.

(** A numeral that [int] converts: one of at most 4300 digits. *)
Definition short (d : string) : bool :=
  Z.of_nat (String.length d) <=? PyInt.max_str_digits.

(** What [int] answers on a string of decimal digits. *)
Definition read (d : string) : result Z :=
  if short d then Ok (decimal_value d) else Raise ValueError.

Lemma digit_not_c_space (c : ascii) : Str.is_digit c = true -> PyInt.is_c_space c = false.
Proof. intros Hc. digit_cases c Hc; reflexivity. Qed.

(** [int] reads a string of at most 4300 digits as the number it denotes,
    and raises [ValueError] on a longer one. *)
Lemma int_of_number (d : string) : is_number d = true -> PyInt.int d = read d.
Proof.
  destruct d as [|c d]; [discriminate|]. unfold is_number. intros H.
  unfold PyInt.int, PyInt.parse, PyInt.to_ascii. rewrite (digits_are_ascii _ H).
  cbv iota.
  assert (Hc : Str.is_digit c = true) by (simpl in H; now apply andb_true_iff in H).
  rewrite (lstrip_fixed _ c d (digit_not_c_space c Hc)).
  assert (E : PyInt.skip_sign (String c d) = (false, String c d))
    by (digit_cases c Hc; reflexivity).
  rewrite E.
  change (PyInt.skip_prefix 10 (String c d)) with (String c d). cbv zeta.
  rewrite (scan_digits _ false 0 H), (count_digits_number _ H).
  change (PyInt.limited 10) with true. unfold read, short, decimal_value.
  set (n := Z.of_nat (String.length (String c d))).
  set (v := digits_value 0 (String c d)). clearbody n v.
  assert (K : (if PyInt.max_str_digits <? n then Raise ValueError else Ok v) =
              (if n <=? PyInt.max_str_digits then Ok v else @Raise Z ValueError)).
  { destruct (Z.ltb_spec PyInt.max_str_digits n), (Z.leb_spec n PyInt.max_str_digits);
      try lia; reflexivity. }
  rewrite <- K. digit_cases c Hc; reflexivity.
Qed.

Lemma int_of_short (d : string) :
  is_number d = true -> short d = true -> PyInt.int d = Ok (decimal_value d).
Proof. intros H K. rewrite (int_of_number d H). unfold read. now rewrite K. Qed.

(** ** The groups of a match of each pattern *)

Ltac inv H := inversion H; subst; clear H.

Lemma matches_seq whole r1 r2 s g s2 g2 :
  matches whole (Re.Seq r1 r2) s g s2 g2 ->
  exists s1 g1, matches whole r1 s g s1 g1 /\ matches whole r2 s1 g1 s2 g2.
Proof. intros H. inv H. eauto. Qed.

Lemma matches_lit whole c s g s' g' :
  matches whole (Re.Lit c) s g s' g' -> s = String c s' /\ g' = g.
Proof. intros H. inv H. auto. Qed.

Lemma matches_ws whole s g s' g' :
  matches whole Re.ws s g s' g' ->
  exists w, s = w ++ s' /\ Str.forallb Str.is_space w = true /\ g' = g.
Proof. intros H. inv H. eauto. Qed.

Lemma matches_opt_lit whole c s g s' g' :
  matches whole (Re.Opt (Re.Lit c)) s g s' g' -> g' = g.
Proof.
  intros H. inv H; [|reflexivity].
  match goal with K : matches _ (Re.Lit _) _ _ _ _ |- _ => now apply matches_lit in K end.
Qed.

Lemma matches_num whole i s g s' g' :
  matches whole (Re.num i) s g s' g' ->
  exists d, s = d ++ s' /\ is_number d = true /\ g' = (i, d) :: g.
Proof.
  intros H. unfold Re.num in H. inv H.
  match goal with K : matches _ (Re.Plus _) _ _ _ _ |- _ => inv K end.
  exists (String c w). split; [reflexivity|]. split.
  - simpl. apply andb_true_iff. auto.
  - f_equal. f_equal. apply (take_app (String c w) s').
Qed.

Lemma matches_rep_cls whole (p : ascii -> bool) n :
  forall s g s' g',
    matches whole (Re.Rep n (Re.Cls p)) s g s' g' ->
    exists w, s = w ++ s' /\ String.length w = n /\ Str.forallb p w = true /\ g' = g.
Proof.
  induction n as [|n IH]; intros s g s' g' H; inv H.
  - exists EmptyString. auto.
  - match goal with K : matches _ (Re.Cls _) _ _ _ _ |- _ => inv K end.
    match goal with K : matches _ (Re.Rep _ _) _ _ _ _ |- _ =>
      apply IH in K; destruct K as (w & -> & <- & Hw & ->) end.
    exists (String c w). simpl. rewrite Hw, andb_true_r. auto.
Qed.

(** Splits a match of a sequence and reads the effect of each piece. *)
Ltac split_match :=
  repeat match goal with
  | H : matches _ (Re.Seq _ _) _ _ _ _ |- _ =>
      apply matches_seq in H; destruct H as (? & ? & ? & H)
  | H : matches _ (Re.Lit _) _ _ _ _ |- _ =>
      apply matches_lit in H; destruct H as (? & ?); subst
  | H : matches _ Re.ws _ _ _ _ |- _ =>
      apply matches_ws in H; destruct H as (? & ? & ? & ?); subst
  | H : matches _ (Re.Opt (Re.Lit _)) _ _ _ _ |- _ =>
      apply matches_opt_lit in H; subst
  | H : matches _ (Re.num _) _ _ _ _ |- _ =>
      apply matches_num in H; destruct H as (? & ? & ? & ?); subst
  | H : matches _ Re.Eps _ _ _ _ |- _ => inv H
  end.

(** The three groups of a match are numerals. *)
Definition three_numbers (m : Re.caps) : Prop :=
  is_number (Re.group 1 m) = true /\
  is_number (Re.group 2 m) = true /\
  is_number (Re.group 3 m) = true.

Lemma rgb_re_groups (s : string) (m : Re.caps) :
  Re.rmatch Color.rgb_re s = Some m -> three_numbers m.
Proof.
  intros H. apply rmatch_sound in H. destruct H as (s' & H).
  unfold Color.rgb_re in H. cbn [Re.word] in H. split_match.
  repeat split; assumption.
Qed.

Lemma comma_re_groups (s : string) (m : Re.caps) :
  Re.rmatch Color.comma_re s = Some m -> three_numbers m.
Proof.
  intros H. apply rmatch_sound in H. destruct H as (s' & H).
  unfold Color.comma_re in H. split_match.
  repeat split; assumption.
Qed.

Lemma hsl_re_groups (s : string) (m : Re.caps) :
  Re.rmatch Color.hsl_re s = Some m -> three_numbers m.
Proof.
  intros H. apply rmatch_sound in H. destruct H as (s' & H).
  unfold Color.hsl_re in H. cbn [Re.word] in H. split_match.
  repeat split; assumption.
Qed.

Definition all_short (ds : list string) : bool := List.forallb short ds.

(** [map(int, ...)] on three numerals: their numbers when each has at most
    4300 digits, and [ValueError] otherwise. *)
Definition read3 (d1 d2 d3 : string) : result (Z * Z * Z) :=
  if all_short [d1; d2; d3]
  then Ok (decimal_value d1, decimal_value d2, decimal_value d3)
  else Raise ValueError.

Lemma int_groups_numbers (m : Re.caps) :
  three_numbers m ->
  Color.int_groups m = read3 (Re.group 1 m) (Re.group 2 m) (Re.group 3 m).
Proof.
  intros (H1 & H2 & H3). unfold Color.int_groups, read3, all_short.
  rewrite (int_of_number _ H1), (int_of_number _ H2), (int_of_number _ H3).
  unfold read. cbn [List.forallb].
  destruct (short (Re.group 1 m)), (short (Re.group 2 m)), (short (Re.group 3 m));
    reflexivity.
Qed.

Lemma lower_hex_is_hex (c : ascii) : Str.is_lower_hex c = true -> Str.is_hex c = true.
Proof. unfold Str.is_hex, Str.is_lower_hex. intros ->. reflexivity. Qed.

Lemma matches_opt_lit_text whole c s g s' g' :
  matches whole (Re.Opt (Re.Lit c)) s g s' g' ->
  exists pre, s = pre ++ s' /\ (pre = EmptyString \/ pre = String c EmptyString).
Proof.
  intros H. inv H.
  - match goal with K : matches _ (Re.Lit _) _ _ _ _ |- _ =>
      apply matches_lit in K; destruct K as [-> _] end.
    exists (String c EmptyString). auto.
  - exists EmptyString. auto.
Qed.

(** A match of the hexadecimal pattern covers the whole text: an optional
    '#', three or six lower-case hexadecimal digits, which are the group,
    and nothing behind them but possibly a final newline. *)
Lemma hex_re_shape (s : string) (m : Re.caps) :
  Re.rmatch Color.hex_re s = Some m ->
  exists pre t post,
    s = pre ++ t ++ post /\
    (pre = EmptyString \/ pre = "#") /\
    (post = EmptyString \/ post = String "010" EmptyString) /\
    m = [(1%nat, t)] /\
    (String.length t = 3%nat \/ String.length t = 6%nat) /\
    Str.forallb Str.is_lower_hex t = true.
Proof.
  intros H. apply rmatch_sound in H. destruct H as (s' & H).
  unfold Color.hex_re in H.
  repeat match goal with
  | K : matches _ (Re.Seq _ _) _ _ _ _ |- _ =>
      apply matches_seq in K; destruct K as (? & ? & ? & K)
  end.
  match goal with K : matches _ (Re.Opt _) _ _ _ _ |- _ =>
    pose proof (matches_opt_lit_text _ _ _ _ _ _ K) as (pre & ? & Hpre);
    apply matches_opt_lit in K
  end.
  repeat match goal with
  | K : matches _ Re.Bos _ _ _ _ |- _ => inv K
  | K : matches _ Re.Eos _ _ _ _ |- _ => inv K
  | K : matches _ (Re.Grp _ _) _ _ _ _ |- _ => inv K
  end.
  match goal with K : matches _ (Re.Alt _ _) ?x _ ?y _ |- _ =>
    assert (L : exists w, x = w ++ y /\
                          (String.length w = 3%nat \/ String.length w = 6%nat) /\
                          Str.forallb Str.is_lower_hex w = true /\ g' = []);
    [inv K;
     match goal with K' : matches _ (Re.Rep _ _) _ _ _ _ |- _ =>
       apply matches_rep_cls in K'; destruct K' as (w & ? & ? & ? & ?); eauto 8 end|]
  end.
  destruct L as (w & -> & Hlen & Hw & ->).
  exists pre, w, s'. rewrite take_app. auto 10.
Qed.

Lemma hex_re_group (s : string) (m : Re.caps) :
  Re.rmatch Color.hex_re s = Some m ->
  exists t, m = [(1%nat, t)] /\
            (String.length t = 3%nat \/ String.length t = 6%nat) /\
            Str.forallb Str.is_lower_hex t = true.
Proof.
  intros H. apply hex_re_shape in H.
  destruct H as (pre & t & post & _ & _ & _ & ? & ? & ?). eauto.
Qed.

Lemma hex_re_accepted (s : string) (m : Re.caps) :
  Re.rmatch Color.hex_re s = Some m ->
  exists r g b, Color.hex_to_rgb (Re.group 1 m) = Ok (r, g, b) /\
                0 <= r <= 255 /\ 0 <= g <= 255 /\ 0 <= b <= 255.
Proof.
  intros H. apply hex_re_group in H. destruct H as (t & -> & Hlen & Ht).
  cbn [Re.group Nat.eqb]. apply hex_to_rgb_accepts.
  assert (E : Str.lstrip (Ascii.eqb "#") t = t).
  { destruct t as [|c t]; [reflexivity|]. simpl in Ht. apply andb_true_iff in Ht.
    apply lstrip_fixed, lower_hex_not_hash, (proj1 Ht). }
  rewrite E. unfold hex_3_or_6.
  rewrite (forallb_impl _ _ _ lower_hex_is_hex Ht), andb_true_r.
  destruct Hlen as [->| ->]; reflexivity.
Qed.

(** ** The order of detection *)


(** ** Running the matcher on a text of known shape *)

(** The text is empty or starts with a character outside the class. *)
Definition starts_without (p : ascii -> bool) (s : string) : bool :=
  match s with
  | EmptyString => true
  | String c _ => negb (p c)
  end.

Lemma starts_without_app (p q : ascii -> bool) (w s : string) :
  (forall c, q c = true -> p c = false) ->
  Str.forallb q w = true -> starts_without p s = true ->
  starts_without p (w ++ s) = true.
Proof.
  intros Hqp Hw Hs. destruct w as [|c w]; [exact Hs|].
  simpl in *. apply andb_true_iff in Hw. now rewrite (Hqp c (proj1 Hw)).
Qed.

Lemma starts_without_number (p : ascii -> bool) (d s : string) :
  (forall c, Str.is_digit c = true -> p c = false) ->
  is_number d = true -> starts_without p (d ++ s) = true.
Proof.
  intros Hp Hd. destruct d as [|c d]; [discriminate|].
  simpl in *. apply andb_true_iff in Hd. now rewrite (Hp c (proj1 Hd)).
Qed.

Section Steps.

Variable whole : string.
Variable k : Re.cont.

Lemma star_greedy (p : ascii -> bool) (w s : string) (g m : Re.caps) :
  Str.forallb p w = true -> starts_without p s = true ->
  k s g = Some m -> Re.star p k (w ++ s) g = Some m.
Proof.
  intros Hw Hs Hk. induction w as [|c w IH].
  - destruct s as [|c s]; simpl in *; [exact Hk|].
    apply negb_true_iff in Hs. now rewrite Hs.
  - simpl in Hw. apply andb_true_iff in Hw. destruct Hw as [Hc Hw].
    simpl. now rewrite Hc, (IH Hw).
Qed.

End Steps.

Section Seq_steps.

Variable whole : string.
Variable rest : Re.regex.
Variable k : Re.cont.

Lemma step_lit (c : ascii) (s : string) (g m : Re.caps) :
  Re.run whole rest k s g = Some m ->
  Re.run whole (Re.Seq (Re.Lit c) rest) k (String c s) g = Some m.
Proof. intros H. cbn [Re.run]. now rewrite Ascii.eqb_refl. Qed.

Lemma step_ws (w s : string) (g m : Re.caps) :
  Str.forallb Str.is_space w = true -> starts_without Str.is_space s = true ->
  Re.run whole rest k s g = Some m ->
  Re.run whole (Re.Seq Re.ws rest) k (w ++ s) g = Some m.
Proof. intros Hw Hs H. cbn [Re.run Re.ws]. now apply star_greedy. Qed.

Lemma step_num (i : nat) (d s : string) (g m : Re.caps) :
  is_number d = true -> starts_without Str.is_digit s = true ->
  Re.run whole rest k s ((i, d) :: g) = Some m ->
  Re.run whole (Re.Seq (Re.num i) rest) k (d ++ s) g = Some m.
Proof.
  intros Hd Hs H. destruct d as [|c d]; [discriminate|].
  simpl in Hd. apply andb_true_iff in Hd. destruct Hd as [Hc Hd].
  cbn [Re.run Re.num append]. rewrite Hc.
  apply star_greedy; [exact Hd | exact Hs |].
  cbv beta. change (String c (d ++ s)) with (String c d ++ s).
  now rewrite (take_app (String c d) s).
Qed.

(** An optional character, present ([b = true]) or not. *)
Lemma step_opt_lit (c : ascii) (b : bool) (s : string) (g m : Re.caps) :
  starts_without (Ascii.eqb c) s = true ->
  Re.run whole rest k s g = Some m ->
  Re.run whole (Re.Seq (Re.Opt (Re.Lit c)) rest) k
    ((if b then String c EmptyString else EmptyString) ++ s) g = Some m.
Proof.
  intros Hs H. cbn [Re.run]. destruct b; cbn [append].
  - now rewrite Ascii.eqb_refl, H.
  - destruct s as [|c' s]; [simpl; exact H|].
    simpl in Hs. apply negb_true_iff in Hs. rewrite Hs. exact H.
Qed.

End Seq_steps.

Lemma last_lit (whole : string) (k : Re.cont) (c : ascii) (s : string) (g : Re.caps) :
  Re.run whole (Re.Lit c) k (String c s) g = k s g.
Proof. cbn [Re.run]. now rewrite Ascii.eqb_refl. Qed.


(** Classes that exclude one another. *)
Definition exclusive (p q : ascii -> bool) : bool :=
  List.forallb (fun c => negb (p c && q c)) all_ascii.

Lemma exclusive_spec (p q : ascii -> bool) :
  exclusive p q = true -> forall c, p c = true -> q c = false.
Proof.
  intros H c Hp. pose proof (ascii_forall _ H c) as K. simpl in K.
  rewrite Hp in K. simpl in K. now apply negb_true_iff in K.
Qed.

Lemma space_not_digit (c : ascii) : Str.is_space c = true -> Str.is_digit c = false.
Proof. apply exclusive_spec. vm_compute. reflexivity. Qed.

Lemma digit_not_space (c : ascii) : Str.is_digit c = true -> Str.is_space c = false.
Proof. apply exclusive_spec. vm_compute. reflexivity. Qed.

Lemma space_not_percent (c : ascii) : Str.is_space c = true -> Ascii.eqb "%" c = false.
Proof. apply exclusive_spec. vm_compute. reflexivity. Qed.


Lemma run_word (whole : string) (u : string) :
  forall (k : Re.cont) (s : string) (g : Re.caps),
    Re.run whole (Re.word u) k (u ++ s) g = k s g.
Proof.
  induction u as [|c u IH]; intros k s g; [reflexivity|].
  cbn [Re.word Re.run append]. now rewrite Ascii.eqb_refl, IH.
Qed.

Lemma step_word (whole : string) (rest : Re.regex) (k : Re.cont)
      (u s : string) (g : Re.caps) :
  Re.run whole (Re.Seq (Re.word u) rest) k (u ++ s) g = Re.run whole rest k s g.
Proof. cbn [Re.run]. apply run_word. Qed.






(** The texts of the three non-anchored notations: numerals [d1 d2 d3],
    white space [a1 b1 a2 b2] around the commas and [w1 w2 w3] around the
    parentheses, optional percent signs. *)
Definition triple_text (d1 a1 b1 d2 a2 b2 d3 : string) : string :=
  d1 ++ a1 ++ "," ++ b1 ++ d2 ++ a2 ++ "," ++ b2 ++ d3.

Definition rgb_text (w1 w2 d1 a1 b1 d2 a2 b2 d3 w3 : string) : string :=
  "rgb" ++ w1 ++ "(" ++ w2 ++ triple_text d1 a1 b1 d2 a2 b2 d3 ++ w3 ++ ")".

Definition percent (b : bool) : string := if b then "%" else "".

Definition hsl_text (w1 w2 d1 a1 b1 d2 : string) (p2 : bool)
           (a2 b2 d3 : string) (p3 : bool) (w3 : string) : string :=
  "hsl" ++ w1 ++ "(" ++ w2 ++ d1 ++ a1 ++ "," ++ b1
        ++ d2 ++ percent p2 ++ a2 ++ "," ++ b2
        ++ d3 ++ percent p3 ++ w3 ++ ")".

Definition all_space (ws : list string) : bool :=
  List.forallb (Str.forallb Str.is_space) ws.

Definition all_numbers (ds : list string) : bool := List.forallb is_number ds.

(** Discharges the side conditions of the step lemmas. *)
Ltac side :=
  first
    [ assumption
    | reflexivity
    | apply starts_without_number; [exact digit_not_space | assumption]
    | apply (starts_without_app _ Str.is_space);
      [first [exact space_not_digit | exact space_not_percent] | assumption | reflexivity] ].

Ltac lit_step :=
  match goal with
  | |- Re.run _ (Re.Seq (Re.Lit ?c) _) _ (String ?c ?s) _ = _ => apply step_lit
  | |- Re.run _ (Re.Seq (Re.Lit ?c) _) _ (?u ++ ?s) _ = _ =>
      change (u ++ s) with (String c s); apply step_lit
  end.

Ltac ws_step := apply step_ws; [side | side |].
Ltac num_step := apply step_num; [side | side |].

Section Shapes.

Variables w1 w2 d1 a1 b1 d2 a2 b2 d3 w3 : string.
Hypothesis spaces : all_space [w1; w2; a1; b1; a2; b2; w3] = true.
Hypothesis numbers : all_numbers [d1; d2; d3] = true.

Lemma spaces_inv :
  Str.forallb Str.is_space w1 = true /\ Str.forallb Str.is_space w2 = true /\
  Str.forallb Str.is_space a1 = true /\ Str.forallb Str.is_space b1 = true /\
  Str.forallb Str.is_space a2 = true /\ Str.forallb Str.is_space b2 = true /\
  Str.forallb Str.is_space w3 = true.
Proof.
  pose proof spaces as H. unfold all_space in H. cbn [List.forallb] in H.
  rewrite !andb_true_iff in H. tauto.
Qed.

Lemma numbers_inv : is_number d1 = true /\ is_number d2 = true /\ is_number d3 = true.
Proof.
  pose proof numbers as H. unfold all_numbers in H. cbn [List.forallb] in H.
  rewrite !andb_true_iff in H. tauto.
Qed.

Lemma rgb_re_matches (t : string) :
  Re.rmatch Color.rgb_re (rgb_text w1 w2 d1 a1 b1 d2 a2 b2 d3 w3 ++ t) =
  Some [(3%nat, d3); (2%nat, d2); (1%nat, d1)].
Proof.
  destruct spaces_inv as (? & ? & ? & ? & ? & ? & ?).
  destruct numbers_inv as (? & ? & ?).
  unfold Re.rmatch, Color.rgb_re, rgb_text, triple_text. rewrite !app_assoc.
  rewrite step_word.
  ws_step. lit_step. ws_step.
  num_step. ws_step. lit_step. ws_step.
  num_step. ws_step. lit_step. ws_step.
  num_step. ws_step.
  change (")" ++ t) with (String ")" t). now rewrite last_lit.
Qed.


Lemma hsl_re_matches (p2 p3 : bool) (t : string) :
  Re.rmatch Color.hsl_re (hsl_text w1 w2 d1 a1 b1 d2 p2 a2 b2 d3 p3 w3 ++ t) =
  Some [(3%nat, d3); (2%nat, d2); (1%nat, d1)].
Proof.
  destruct spaces_inv as (? & ? & ? & ? & ? & ? & ?).
  destruct numbers_inv as (? & ? & ?).
  unfold Re.rmatch, Color.hsl_re, hsl_text. rewrite !app_assoc.
  rewrite step_word.
  ws_step. lit_step. ws_step.
  num_step. ws_step. lit_step. ws_step.
  apply step_num; [side | destruct p2; cbn [percent append]; side |].
  apply (step_opt_lit _ _ _ "%" p2); [side|].
  ws_step. lit_step. ws_step.
  apply step_num; [side | destruct p3; cbn [percent append]; side |].
  apply (step_opt_lit _ _ _ "%" p3); [side|].
  ws_step.
  change (")" ++ t) with (String ")" t). now rewrite last_lit.
Qed.

End Shapes.

(** ** Normalising a text of known shape *)

Lemma rstrip_app (p : ascii -> bool) (x y : string) :
  Str.rstrip p (x ++ y) =
  match Str.rstrip p y with
  | EmptyString => Str.rstrip p x
  | _ => x ++ Str.rstrip p y
  end.
Proof.
  induction x as [|a x IH]; simpl.
  - now destruct (Str.rstrip p y).
  - rewrite IH. destruct (Str.rstrip p y) as [|b u]; [reflexivity|].
    now destruct x.
Qed.

(** The text is not empty and does not end with a character of the class. *)
Definition ends_solid (p : ascii -> bool) (s : string) : Prop :=
  s <> EmptyString /\ Str.rstrip p s = s.

Lemma ends_solid_app (p : ascii -> bool) (x y : string) :
  ends_solid p y -> ends_solid p (x ++ y).
Proof.
  intros [Hne Hy]. split.
  - destruct x; [exact Hne | discriminate].
  - rewrite rstrip_app, Hy. destruct y; [congruence | reflexivity].
Qed.

Lemma ends_solid_number (d : string) : is_number d = true -> ends_solid Str.is_space d.
Proof.
  intros H. split; [now destruct d|].
  assert (K : Str.forallb Str.is_digit d = true) by now destruct d.
  clear H. induction d as [|c d IH]; [reflexivity|].
  simpl in K. apply andb_true_iff in K. destruct K as [Hc Hd].
  simpl. rewrite (IH Hd), (digit_not_space c Hc). now destruct d.
Qed.

Lemma rstrip_prefix (p : ascii -> bool) (x t : string) :
  ends_solid p x -> Str.rstrip p (x ++ t) = x ++ Str.rstrip p t.
Proof.
  intros [_ Hx]. rewrite rstrip_app, Hx.
  destruct (Str.rstrip p t); [now rewrite app_empty_r | reflexivity].
Qed.

Lemma lstrip_none (p : ascii -> bool) (s : string) :
  starts_without p s = true -> Str.lstrip p s = s.
Proof.
  destruct s as [|c s]; [reflexivity|]. simpl. intros H.
  apply negb_true_iff in H. now rewrite H.
Qed.

Lemma lower_app (s t : string) : Str.lower (s ++ t) = Str.lower s ++ Str.lower t.
Proof.
  unfold Str.lower. induction s as [|c s IH]; simpl; [reflexivity | now rewrite IH].
Qed.

Lemma lower_fixed_app (s t : string) :
  Str.lower s = s -> Str.lower t = t -> Str.lower (s ++ t) = s ++ t.
Proof. intros Hs Ht. now rewrite lower_app, Hs, Ht. Qed.

Lemma lower_fixed (p : ascii -> bool) (s : string) :
  (forall c, p c = true -> Str.lower_char c = c) ->
  Str.forallb p s = true -> Str.lower s = s.
Proof.
  intros Hp. unfold Str.lower. induction s as [|c s IH]; simpl; [reflexivity|].
  rewrite andb_true_iff. intros [Hc Hs]. now rewrite (Hp c Hc), (IH Hs).
Qed.

Definition fixed_by_lower (p : ascii -> bool) : bool :=
  List.forallb (fun c => implb (p c) (Ascii.eqb (Str.lower_char c) c)) all_ascii.

Lemma fixed_by_lower_spec (p : ascii -> bool) :
  fixed_by_lower p = true -> forall c, p c = true -> Str.lower_char c = c.
Proof.
  intros H c Hp. pose proof (ascii_forall _ H c) as K. simpl in K.
  rewrite Hp in K. now apply Ascii.eqb_eq.
Qed.

Lemma lower_space (w : string) : Str.forallb Str.is_space w = true -> Str.lower w = w.
Proof. apply lower_fixed, fixed_by_lower_spec. vm_compute. reflexivity. Qed.

Lemma lower_digits (w : string) : Str.forallb Str.is_digit w = true -> Str.lower w = w.
Proof. apply lower_fixed, fixed_by_lower_spec. vm_compute. reflexivity. Qed.

Lemma lower_number (d : string) : is_number d = true -> Str.lower d = d.
Proof. intros H. apply lower_digits. now destruct d. Qed.

(** The normal form of a text that starts with a prefix which [strip] and
    [lower] leave alone: only what follows the prefix changes. *)
Lemma normalise_prefix (x t : string) :
  starts_without Str.is_space (x ++ t) = true ->
  ends_solid Str.is_space x -> Str.lower x = x ->
  Str.lower (Str.strip (x ++ t)) = x ++ Str.lower (Str.rstrip Str.is_space t).
Proof.
  intros Hs He Hl. unfold Str.strip.
  now rewrite (lstrip_none _ _ Hs), (rstrip_prefix _ _ _ He), lower_app, Hl.
Qed.



Section Shape_facts.

Variables w1 w2 d1 a1 b1 d2 a2 b2 d3 w3 : string.
Hypothesis spaces : all_space [w1; w2; a1; b1; a2; b2; w3] = true.
Hypothesis numbers : all_numbers [d1; d2; d3] = true.

Let sp := spaces_inv _ _ _ _ _ _ _ spaces.
Let nu := numbers_inv _ _ _ numbers.

Ltac shape_pieces :=
  destruct sp as (? & ? & ? & ? & ? & ? & ?); destruct nu as (? & ? & ?).

Ltac solid :=
  repeat first
    [ apply ends_solid_number; assumption
    | split; [discriminate | reflexivity]
    | apply ends_solid_app ].

Ltac lowered :=
  repeat first
    [ apply lower_space; assumption
    | apply lower_number; assumption
    | reflexivity
    | apply lower_fixed_app ].

Lemma rgb_text_normal (t : string) :
  let x := rgb_text w1 w2 d1 a1 b1 d2 a2 b2 d3 w3 in
  Str.lower (Str.strip (x ++ t)) = x ++ Str.lower (Str.rstrip Str.is_space t).
Proof.
  shape_pieces. intros x. apply normalise_prefix.
  - reflexivity.
  - unfold x, rgb_text, triple_text. solid.
  - unfold x, rgb_text, triple_text. lowered.
Qed.


Lemma hsl_text_normal (p2 p3 : bool) (t : string) :
  let x := hsl_text w1 w2 d1 a1 b1 d2 p2 a2 b2 d3 p3 w3 in
  Str.lower (Str.strip (x ++ t)) = x ++ Str.lower (Str.rstrip Str.is_space t).
Proof.
  shape_pieces. intros x. apply normalise_prefix.
  - reflexivity.
  - unfold x, hsl_text. solid.
  - unfold x, hsl_text. destruct p2, p3; lowered.
Qed.

End Shape_facts.

(** ** Texts on which a pattern fails at its first character *)

Lemma hex_re_first (c : ascii) (x : string) :
  Str.is_lower_hex c = false -> Ascii.eqb "#" c = false ->
  Re.rmatch Color.hex_re (String c x) = None.
Proof.
  intros Hc Hh. unfold Re.rmatch, Color.hex_re. cbn [Re.run].
  now rewrite Nat.eqb_refl, Hh, Hc.
Qed.

Lemma rgb_re_first (c : ascii) (x : string) :
  Ascii.eqb "r" c = false -> Re.rmatch Color.rgb_re (String c x) = None.
Proof.
  intros Hc. unfold Re.rmatch, Color.rgb_re. cbn [Re.run Re.word]. now rewrite Hc.
Qed.

Lemma comma_re_first (c : ascii) (x : string) :
  Str.is_digit c = false -> Re.rmatch Color.comma_re (String c x) = None.
Proof.
  intros Hc. unfold Re.rmatch, Color.comma_re. cbn [Re.run Re.num]. now rewrite Hc.
Qed.

(** The characters a match of the hexadecimal pattern can cover. *)
Definition hexish (c : ascii) : bool :=
  Str.is_lower_hex c || Ascii.eqb c "#" || Ascii.eqb c "010".

Lemma hex_re_hexish (s : string) :
  Str.forallb hexish s = false -> Re.rmatch Color.hex_re s = None.
Proof.
  intros H. destruct (Re.rmatch Color.hex_re s) as [m|] eqn:E; [|reflexivity].
  apply hex_re_shape in E.
  destruct E as (pre & t & post & -> & Hpre & Hpost & _ & _ & Ht).
  rewrite !forallb_app in H.
  assert (K : Str.forallb hexish t = true).
  { revert Ht. apply forallb_impl. intros c Hc. unfold hexish. now rewrite Hc. }
  rewrite K in H. destruct Hpre as [->| ->], Hpost as [->| ->]; discriminate H.
Qed.

Lemma forallb_false_app (p : ascii -> bool) (x y : string) :
  Str.forallb p y = false -> Str.forallb p (x ++ y) = false.
Proof. intros H. now rewrite forallb_app, H, andb_false_r. Qed.

Lemma shorts_inv (x1 x2 x3 : string) :
  all_short [x1; x2; x3] = true <->
  short x1 = true /\ short x2 = true /\ short x3 = true.
Proof.
  unfold all_short. cbn [List.forallb]. rewrite !andb_true_iff. tauto.
Qed.

Lemma int_groups_3 (x1 x2 x3 : string) :
  is_number x1 = true -> is_number x2 = true -> is_number x3 = true ->
  all_short [x1; x2; x3] = true ->
  Color.int_groups [(3%nat, x3); (2%nat, x2); (1%nat, x1)] =
  Ok (decimal_value x1, decimal_value x2, decimal_value x3).
Proof.
  intros H1 H2 H3 K. apply shorts_inv in K. destruct K as (K1 & K2 & K3).
  unfold Color.int_groups. cbn [Re.group Nat.eqb].
  now rewrite (int_of_short _ H1 K1), (int_of_short _ H2 K2), (int_of_short _ H3 K3).
Qed.

(** ** Matches are not anchored at the end of the text *)





(** ** Two inputs of the hsl notation *)

(** C6, amended. [parse_color "hsl(9, 100%, 60%)"] is recognised as "hsl"
    with the channels (255, 81, 50). *)
Theorem hsl_example :
  Color.parse_color "hsl(9, 100%, 60%)" = Ok (Some ("hsl", 255, 81, 50)).
Proof. vm_compute. reflexivity. Qed.

(** C6 as stated fails: the result is not within one unit per channel of
    (255, 87, 51). *)
Lemma hsl_example_not_close :
  ~ exists r g b,
      Color.parse_color "hsl(9, 100%, 60%)" = Ok (Some ("hsl", r, g, b)) /\
      Z.abs (r - 255) <= 1 /\ Z.abs (g - 87) <= 1 /\ Z.abs (b - 51) <= 1.
Proof.
  intros (r & g & b & E & _ & Hg & _).
  assert (K : Color.parse_color "hsl(9, 100%, 60%)" = Ok (Some ("hsl", 255, 81, 50)))
    by (vm_compute; reflexivity).
  rewrite K in E. injection E as <- <- <-. lia.
Qed.

(** The hue 1 followed by 309 zeros, saturation 0, lightness 0; and the
    same numbers in the rgb notation. *)
Definition huge_hue : string := "hsl(1" ++ Str.repeat "0" 309 ++ ",0,0)".
Definition huge_red : string := "rgb(1" ++ Str.repeat "0" 309 ++ ",0,0)".

(** C5 fails on the code: on [huge_hue] the hsl pattern matches, and the
    division of the hue by 360.0 raises [OverflowError], the integer being
    too large for a float.  The rgb branch returns the same number as it
    is. *)
Theorem parse_color_raises :
  Color.parse_color huge_hue = Raise OverflowError /\
  Color.parse_color huge_red = Ok (Some ("rgb", 10 ^ 309, 0, 0)).
Proof. split; vm_compute; reflexivity. Qed.

(** ** Floats: the integer part of a float below a bound *)

Lemma digits2_pos_bound (m : positive) : Zpos m < 2 ^ Zpos (digits2_pos m).
Proof.
  induction m as [m IH|m IH|]; cbn [digits2_pos]; [| |reflexivity];
    rewrite Pos2Z.inj_succ, Z.pow_succ_r by lia; lia.
Qed.

(** The mantissa of a valid float has at most 53 bits. *)
Lemma valid_mantissa (s : bool) (m : positive) (e : Z) :
  valid_binary (S754_finite s m e) = true -> Zpos m < 2 ^ 53.
Proof.
  unfold valid_binary, bounded, canonical_mantissa, fexp.
  rewrite andb_true_iff, Z.eqb_eq. intros [H _].
  assert (K : Zpos (digits2_pos m) <= 53) by (change prec with 53 in H; lia).
  pose proof (digits2_pos_bound m).
  assert (2 ^ Zpos (digits2_pos m) <= 2 ^ 53) by (apply Z.pow_le_mono_r; lia).
  lia.
Qed.

(** A float between zero and a bound whose value is the integer [n] has an
    integer part in [0, n). The bound is given by its mantissa and its
    exponent. *)
Lemma to_int_below (x bound : float) (mB : positive) (eB n : Z) :
  Prim2SF bound = S754_finite false mB eB ->
  eB <= 0 -> 2 ^ 52 <= Zpos mB -> Zpos mB = n * 2 ^ (- eB) ->
  (0 <=? x)%float = true -> (x <? bound)%float = true ->
  exists v, PyFloat.to_int x = Ok v /\ 0 <= v < n.
Proof.
  intros HB HeB HmB Hn Hle Hlt.
  assert (Hn0 : 0 < n).
  { assert (0 < 2 ^ (- eB)) by (apply Z.pow_pos_nonneg; lia). nia. }
  rewrite leb_spec in Hle. rewrite ltb_spec, HB in Hlt.
  pose proof (Prim2SF_valid x) as Hv.
  unfold PyFloat.to_int.
  change (Prim2SF 0) with (S754_zero false) in Hle.
  destruct (Prim2SF x) as [s|s| |s m e].
  - exists 0. split; [reflexivity|lia].
  - destruct s; discriminate.
  - discriminate.
  - destruct s; [discriminate|].
    apply valid_mantissa in Hv.
    exists (Z.shiftl (Zpos m) e). split; [reflexivity|].
    unfold SFltb, SFcompare in Hlt.
    assert (He : e <= eB).
    { destruct (Z.compare_spec e eB); try lia; discriminate. }
    replace e with (- (- e)) by lia.
    rewrite Z.shiftl_opp_r, Z.shiftr_div_pow2 by lia.
    assert (Hp : 0 < 2 ^ (- e)) by (apply Z.pow_pos_nonneg; lia).
    split; [apply Z.div_pos; lia|].
    apply Z.div_lt_upper_bound; [exact Hp|].
    destruct (Z.compare_spec e eB) as [->|Hc|Hc]; try discriminate.
    + change (Pos.compare_cont Eq m mB) with (Pos.compare m mB) in Hlt.
      destruct (Pos.compare_spec m mB); try discriminate. lia.
    + replace (- e) with (- eB + (eB - e)) by lia.
      rewrite Z.pow_add_r by lia.
      assert (2 <= 2 ^ (eB - e)).
      { change 2 with (2 ^ 1) at 1. apply Z.pow_le_mono_r; lia. }
      nia.
Qed.

(** ** The channels of a byte colour as floats *)

(** [z / 255.0] for a byte [z]. *)
Definition norm (z : Z) : float := (of_uint63 (Uint63.of_Z z) / 255)%float.

Definition norm_table : list float := Eval vm_compute in List.map norm range256.

Lemma norm_table_eq : norm_table = List.map norm range256.
Proof. vm_compute. reflexivity. Qed.

Lemma in_norm_table (z : Z) : 0 <= z < 256 -> In (norm z) norm_table.
Proof. intros H. rewrite norm_table_eq. apply in_map, in_range256, H. Qed.

Definition finite_byte (z : Z) : bool :=
  negb (is_infinity (of_uint63 (Uint63.of_Z z))).

Lemma finite_bytes : List.forallb finite_byte range256 = true.
Proof. vm_compute. reflexivity. Qed.

Lemma truediv_byte (z : Z) : 0 <= z < 256 -> PyFloat.truediv z 255 = Ok (norm z).
Proof.
  intros H. unfold PyFloat.truediv, PyFloat.of_int.
  rewrite Z.abs_eq by lia.
  assert (E1 : (z <? 2 ^ 63) = true) by (apply Z.ltb_lt; lia).
  assert (E2 : (z <? 0) = false) by (apply Z.ltb_ge; lia).
  pose proof (range256_forall _ finite_bytes z H) as E3.
  unfold finite_byte in E3. apply negb_true_iff in E3.
  rewrite E1, E3, E2. reflexivity.
Qed.

(** The floats of the bytes are ordered like the bytes. *)
Definition norm_order_ok (i : Z) : bool :=
  List.forallb (fun j => Bool.eqb (norm i <? norm j)%float (i <? j)) range256.

Lemma norm_order_all : List.forallb norm_order_ok range256 = true.
Proof. vm_compute. reflexivity. Qed.

Lemma norm_ltb (i j : Z) :
  0 <= i < 256 -> 0 <= j < 256 -> (norm i <? norm j)%float = (i <? j).
Proof.
  intros Hi Hj. pose proof (range256_forall _ norm_order_all i Hi) as H.
  unfold norm_order_ok in H. rewrite forallb_forall in H.
  apply eqb_prop, H, in_range256, Hj.
Qed.

Lemma max3_norm (r g b : Z) :
  0 <= r < 256 -> 0 <= g < 256 -> 0 <= b < 256 ->
  Colorsys.max3 (norm r) (norm g) (norm b) = norm (Z.max (Z.max r g) b).
Proof.
  intros Hr Hg Hb. unfold Colorsys.max3. rewrite (norm_ltb r g Hr Hg).
  destruct (Z.ltb_spec r g).
  - rewrite (norm_ltb g b Hg Hb). destruct (Z.ltb_spec g b); f_equal; lia.
  - rewrite (norm_ltb r b Hr Hb). destruct (Z.ltb_spec r b); f_equal; lia.
Qed.

Lemma min3_norm (r g b : Z) :
  0 <= r < 256 -> 0 <= g < 256 -> 0 <= b < 256 ->
  Colorsys.min3 (norm r) (norm g) (norm b) = norm (Z.min (Z.min r g) b).
Proof.
  intros Hr Hg Hb. unfold Colorsys.min3. rewrite (norm_ltb g r Hg Hr).
  destruct (Z.ltb_spec g r).
  - rewrite (norm_ltb b g Hb Hg). destruct (Z.ltb_spec b g); f_equal; lia.
  - rewrite (norm_ltb b r Hb Hr). destruct (Z.ltb_spec b r); f_equal; lia.
Qed.

(** ** Lightness and saturation depend on the extreme channels only *)

Definition lightness (maxc minc : float) : float := ((maxc + minc) / 2)%float.

Definition saturation (maxc minc : float) : float :=
  (if minc =? maxc then 0
   else if lightness maxc minc <=? 0.5 then (maxc - minc) / (maxc + minc)
   else (maxc - minc) / (2 - maxc - minc))%float.

Lemma div_ok (x y v : float) : PyFloat.div x y = Ok v -> v = (x / y)%float.
Proof. unfold PyFloat.div. destruct (y =? 0)%float; congruence. Qed.

(** Where [rgb_to_hls] returns, the lightness and the saturation are those
    of the extreme channels. *)
Lemma rgb_to_hls_ls (r g b h l s : float) :
  Colorsys.rgb_to_hls r g b = Ok (h, l, s) ->
  l = lightness (Colorsys.max3 r g b) (Colorsys.min3 r g b) /\
  s = saturation (Colorsys.max3 r g b) (Colorsys.min3 r g b).
Proof.
  unfold Colorsys.rgb_to_hls, saturation, lightness.
  set (maxc := Colorsys.max3 r g b). set (minc := Colorsys.min3 r g b).
  destruct (minc =? maxc)%float; [intros [= _ <- <-]; auto|].
  intros H.
  apply bind_ok_inv in H. destruct H as (s0 & Es & H).
  apply bind_ok_inv in H. destruct H as (rc & _ & H).
  apply bind_ok_inv in H. destruct H as (gc & _ & H).
  apply bind_ok_inv in H. destruct H as (bc & _ & H).
  injection H as _ <- <-. split; [reflexivity|].
  destruct ((maxc + minc) / 2 <=? 0.5)%float; now apply div_ok in Es.
Qed.

Definition in_range (x lim : float) : bool := ((0 <=? x) && (x <? lim))%float.

Definition sl_ok (hi lo : Z) : bool :=
  (hi <? lo) ||
  (in_range (saturation (norm hi) (norm lo) * 100) 101 &&
   in_range (lightness (norm hi) (norm lo) * 100) 101).

Lemma sl_all :
  List.forallb (fun hi => List.forallb (sl_ok hi) range256) range256 = true.
Proof. vm_compute. reflexivity. Qed.

Lemma sl_in_range (hi lo : Z) :
  0 <= lo <= hi -> hi < 256 ->
  in_range (saturation (norm hi) (norm lo) * 100) 101 = true /\
  in_range (lightness (norm hi) (norm lo) * 100) 101 = true.
Proof.
  intros H1 H2.
  assert (H : sl_ok hi lo = true).
  { pose proof (range256_forall _ sl_all hi ltac:(lia)) as K.
    rewrite forallb_forall in K. apply K, in_range256. lia. }
  unfold sl_ok in H. apply orb_true_iff in H. destruct H as [H|H].
  - apply Z.ltb_lt in H. lia.
  - now apply andb_true_iff in H.
Qed.

(** The saturation as the releases of [colorsys] with [2.0-sumc] compute
    it: it stays in the same range. *)
Definition saturation_3_11 (maxc minc : float) : float :=
  (if minc =? maxc then 0
   else if lightness maxc minc <=? 0.5 then (maxc - minc) / (maxc + minc)
   else (maxc - minc) / (2 - (maxc + minc)))%float.

Definition saturation_3_11_ok (hi lo : Z) : bool :=
  (hi <? lo) || in_range (saturation_3_11 (norm hi) (norm lo) * 100) 101.

Lemma saturation_3_11_all :
  List.forallb (fun hi => List.forallb (saturation_3_11_ok hi) range256) range256 = true.
Proof. vm_compute. reflexivity. Qed.

(** ** The hue of every byte colour *)

Definition hue_ok (r g b : float) : bool :=
  match Colorsys.rgb_to_hls r g b with
  | Ok (h, _, _) => in_range (h * 360) 360
  | Raise _ => false
  end.

(** Checked by evaluation on the 256 x 256 x 256 byte colours. *)
Lemma hue_all :
  List.forallb
    (fun r => List.forallb (fun g => List.forallb (hue_ok r g) norm_table) norm_table)
    norm_table = true.
Proof. vm_cast_no_check (eq_refl true). Qed.

Lemma forallb_in {A : Type} (f : A -> bool) (l : list A) :
  List.forallb f l = true -> forall x, In x l -> f x = true.
Proof. apply forallb_forall. Qed.

Lemma hue_in_range (r g b : Z) :
  0 <= r < 256 -> 0 <= g < 256 -> 0 <= b < 256 ->
  hue_ok (norm r) (norm g) (norm b) = true.
Proof.
  intros Hr Hg Hb.
  pose proof (forallb_in _ _ hue_all _ (in_norm_table r Hr)) as H1.
  pose proof (forallb_in _ _ H1 _ (in_norm_table g Hg)) as H2.
  exact (forallb_in _ _ H2 _ (in_norm_table b Hb)).
Qed.

(** ** [rgb_to_hsl] on the byte colours *)

Lemma to_int_in_range (x lim : float) (mB : positive) (eB n : Z) :
  Prim2SF lim = S754_finite false mB eB ->
  eB <= 0 -> 2 ^ 52 <= Zpos mB -> Zpos mB = n * 2 ^ (- eB) ->
  in_range x lim = true ->
  exists v, PyFloat.to_int x = Ok v /\ 0 <= v < n.
Proof.
  intros HB H1 H2 H3 H. unfold in_range in H. apply andb_true_iff in H.
  destruct H as [Hle Hlt]. eapply to_int_below; eassumption.
Qed.

Lemma to_int_below_360 (x : float) :
  in_range x 360 = true -> exists v, PyFloat.to_int x = Ok v /\ 0 <= v < 360.
Proof.
  apply (to_int_in_range x 360 6333186975989760 (-44) 360);
    [vm_compute; reflexivity | lia | lia | reflexivity].
Qed.

Lemma to_int_below_101 (x : float) :
  in_range x 101 = true -> exists v, PyFloat.to_int x = Ok v /\ 0 <= v < 101.
Proof.
  apply (to_int_in_range x 101 7107243161944064 (-46) 101);
    [vm_compute; reflexivity | lia | lia | reflexivity].
Qed.

(** On a byte colour [rgb_to_hsl] raises nothing, and its hue is below 360
    and its saturation and lightness are at most 100. *)
Lemma rgb_to_hsl_bytes (r g b : Z) :
  0 <= r <= 255 -> 0 <= g <= 255 -> 0 <= b <= 255 ->
  exists (h l s : float) (h' s' l' : Z),
    Colorsys.rgb_to_hls (norm r) (norm g) (norm b) = Ok (h, l, s) /\
    PyFloat.to_int (h * 360) = Ok h' /\
    PyFloat.to_int (s * 100) = Ok s' /\
    PyFloat.to_int (l * 100) = Ok l' /\
    Color.rgb_to_hsl r g b = Ok (h', s', l') /\
    0 <= h' <= 359 /\ 0 <= s' <= 100 /\ 0 <= l' <= 100.
Proof.
  intros Hr Hg Hb.
  assert (Hr' : 0 <= r < 256) by lia.
  assert (Hg' : 0 <= g < 256) by lia.
  assert (Hb' : 0 <= b < 256) by lia.
  pose proof (hue_in_range r g b Hr' Hg' Hb') as Hh.
  unfold hue_ok in Hh.
  destruct (Colorsys.rgb_to_hls (norm r) (norm g) (norm b)) as [[[h l] s]|] eqn:E;
    [|discriminate].
  destruct (rgb_to_hls_ls _ _ _ _ _ _ E) as [Wl Ws].
  rewrite (max3_norm r g b), (min3_norm r g b) in Wl, Ws by assumption.
  subst l s.
  destruct (sl_in_range (Z.max (Z.max r g) b) (Z.min (Z.min r g) b)) as [Hs Hl];
    [lia | lia |].
  destruct (to_int_below_360 _ Hh) as (h' & Eh & ?).
  destruct (to_int_below_101 _ Hs) as (s' & Es & ?).
  destruct (to_int_below_101 _ Hl) as (l' & El & ?).
  eexists _, _, _, h', s', l'. split; [reflexivity|].
  repeat split; try assumption; try lia.
  unfold Color.rgb_to_hsl.
  rewrite (truediv_byte r Hr'), (truediv_byte g Hg'), (truediv_byte b Hb').
  cbn [bind]. rewrite E. cbn [bind]. rewrite Eh, Es, El. reflexivity.
Qed.

(** ** [int] of a float is a truncation *)

(** The value of a finite float as a fraction, the denominator a power of
    two. *)
Definition exact (x : float) : option (Z * Z) :=
  match Prim2SF x with
  | S754_zero _ => Some (0, 1)
  | S754_finite s m e =>
      let a := if s then Zneg m else Zpos m in
      if 0 <=? e then Some (a * 2 ^ e, 1) else Some (a, 2 ^ (- e))
  | _ => None
  end.

(** [v] is the quotient, rounded towards zero, of the value of [x]. *)
Definition truncation (x : float) (v : Z) : Prop :=
  exists a d, exact x = Some (a, d) /\ 0 < d /\ v = Z.quot a d.

Lemma to_int_truncation (x : float) (v : Z) :
  PyFloat.to_int x = Ok v -> truncation x v.
Proof.
  unfold PyFloat.to_int, truncation, exact.
  destruct (Prim2SF x) as [s|s| |s m e]; try discriminate; intros [= <-].
  - exists 0, 1. repeat split; lia.
  - destruct (Z.leb_spec 0 e) as [He|He].
    + eexists _, 1. split; [reflexivity|]. split; [lia|].
      rewrite Z.quot_1_r, Z.shiftl_mul_pow2 by lia. destruct s; lia.
    + assert (Hp : 0 < 2 ^ (- e)) by (apply Z.pow_pos_nonneg; lia).
      assert (Hs : Z.shiftl (Zpos m) e = Zpos m / 2 ^ (- e)).
      { rewrite <- (Z.opp_involutive e) at 1.
        rewrite Z.shiftl_opp_r. apply Z.shiftr_div_pow2. lia. }
      rewrite Hs.
      exists (if s then Zneg m else Zpos m), (2 ^ (- e)).
      split; [reflexivity|]. split; [exact Hp|].
      destruct s.
      * change (Zneg m) with (- Zpos m). rewrite Z.quot_opp_l by lia.
        f_equal. symmetry. apply Z.quot_div_nonneg; lia.
      * symmetry. apply Z.quot_div_nonneg; lia.
Qed.

(** ** The transform from RGB to HSL *)

Definition in_unit (x : float) : bool := ((0 <=? x) && (x <=? 1))%float.

Lemma norm_in_unit : List.forallb (fun z => in_unit (norm z)) range256 = true.
Proof. vm_compute. reflexivity. Qed.

(** C9. For all bytes r, g, b, [rgb_to_hsl] divides the channels by 255.0,
    which gives floats in [0, 1], applies [colorsys.rgb_to_hls] to them and
    returns the truncations of 360 times the hue and of 100 times the
    saturation and the lightness: integers in [0,359], [0,100] and [0,100].
    A hue of 359.64 degrees, also computed as 0.999 times 360, gives 359,
    and so does the hue of (255, 0, 1). *)
Theorem rgb_to_hsl_truncates :
  (forall r g b : Z,
      0 <= r <= 255 -> 0 <= g <= 255 -> 0 <= b <= 255 ->
      exists (x y z h l s : float) (h' s' l' : Z),
        PyFloat.truediv r 255 = Ok x /\
        PyFloat.truediv g 255 = Ok y /\
        PyFloat.truediv b 255 = Ok z /\
        in_unit x = true /\ in_unit y = true /\ in_unit z = true /\
        Colorsys.rgb_to_hls x y z = Ok (h, l, s) /\
        Color.rgb_to_hsl r g b = Ok (h', s', l') /\
        truncation (h * 360) h' /\
        truncation (s * 100) s' /\
        truncation (l * 100) l' /\
        0 <= h' <= 359 /\ 0 <= s' <= 100 /\ 0 <= l' <= 100) /\
  PyFloat.to_int (35964 / 100) = Ok 359 /\
  PyFloat.to_int (999 / 1000 * 360) = Ok 359 /\
  Color.rgb_to_hsl 255 0 1 = Ok (359, 100, 50).
Proof.
  split; [|repeat split; vm_compute; reflexivity].
  intros r g b Hr Hg Hb.
  destruct (rgb_to_hsl_bytes r g b Hr Hg Hb)
    as (h & l & s & h' & s' & l' & E & Eh & Es & El & Ehsl & ? & ? & ?).
  exists (norm r), (norm g), (norm b), h, l, s, h', s', l'.
  rewrite !truediv_byte by lia.
  rewrite !(range256_forall _ norm_in_unit) by lia.
  repeat split; try assumption; try lia; now apply to_int_truncation.
Qed.

Lemma rgb_to_hsl_truncates_witness :
  exists (x y z h l s : float) (h' s' l' : Z),
    PyFloat.truediv 255 255 = Ok x /\
    PyFloat.truediv 87 255 = Ok y /\
    PyFloat.truediv 51 255 = Ok z /\
    in_unit x = true /\ in_unit y = true /\ in_unit z = true /\
    Colorsys.rgb_to_hls x y z = Ok (h, l, s) /\
    Color.rgb_to_hsl 255 87 51 = Ok (h', s', l') /\
    truncation (h * 360) h' /\
    truncation (s * 100) s' /\
    truncation (l * 100) l' /\
    0 <= h' <= 359 /\ 0 <= s' <= 100 /\ 0 <= l' <= 100.
Proof. apply (proj1 rgb_to_hsl_truncates 255 87 51); lia. Defined.

(** ** The result list *)

Lemma upper_app (s t : string) : Str.upper (s ++ t) = Str.upper s ++ Str.upper t.
Proof.
  unfold Str.upper. induction s as [|c s IH]; simpl; [reflexivity | now rewrite IH].
Qed.

Definition upper_digits_ok (z : Z) : bool :=
  match Str.upper (PyInt.format_02x z) with
  | String a (String b EmptyString) =>
      negb (Ascii.eqb "#" a) &&
      match PyInt.parse 16 (String a (String b EmptyString)) with
      | Ok v => v =? z
      | Raise _ => false
      end
  | _ => false
  end.

Lemma upper_digits_all : List.forallb upper_digits_ok range256 = true.
Proof. vm_compute. reflexivity. Qed.

Lemma upper_format_byte (z : Z) :
  0 <= z <= 255 ->
  exists a b,
    Str.upper (PyInt.format_02x z) = String a (String b EmptyString) /\
    Ascii.eqb "#" a = false /\
    PyInt.parse 16 (String a (String b EmptyString)) = Ok z.
Proof.
  intros Hz.
  assert (H : upper_digits_ok z = true)
    by (apply (range256_forall _ upper_digits_all); lia).
  unfold upper_digits_ok in H.
  destruct (Str.upper (PyInt.format_02x z)) as [|a [|b [|? ?]]]; try discriminate.
  exists a, b.
  destruct (PyInt.parse 16 (String a (String b EmptyString))) as [v|e] eqn:E;
    rewrite ?andb_true_iff in H; [|intuition discriminate].
  destruct H as [Ha Hv]. apply Z.eqb_eq in Hv. apply negb_true_iff in Ha.
  subst v. auto.
Qed.

(** The upper-cased hex string of a byte colour reads back as the colour. *)
Lemma upper_hex_decodes (r g b : Z) :
  0 <= r <= 255 -> 0 <= g <= 255 -> 0 <= b <= 255 ->
  Color.hex_to_rgb (Str.upper (Color.rgb_to_hex r g b)) = Ok (r, g, b).
Proof.
  intros Hr Hg Hb.
  destruct (upper_format_byte r Hr) as (r1 & r2 & Er & Hr1 & Pr).
  destruct (upper_format_byte g Hg) as (g1 & g2 & Eg & _ & Pg).
  destruct (upper_format_byte b Hb) as (b1 & b2 & Eb & _ & Pb).
  unfold Color.hex_to_rgb, Color.rgb_to_hex. rewrite !upper_app, Er, Eg, Eb.
  change (Str.upper "#") with "#".
  cbn [append Str.lstrip].
  change (Ascii.eqb "#" "#") with true. cbv iota.
  rewrite Hr1.
  cbn [String.length Nat.eqb Str.slice substring].
  rewrite Pr, Pg, Pb. reflexivity.
Qed.

Lemma clamp_byte (x : Z) : 0 <= Color.clamp x <= 255.
Proof. unfold Color.clamp. lia. Qed.

Lemma clamp_idem (x : Z) : Color.clamp (Color.clamp x) = Color.clamp x.
Proof. unfold Color.clamp. lia. Qed.

Definition range360 : list Z := List.map Z.of_nat (seq 0 360).

Definition numeral_ok (v : Z) : bool :=
  match PyInt.int (PyInt.str v) with
  | Ok w => w =? v
  | Raise _ => false
  end.

Lemma numeral_all : List.forallb numeral_ok range360 = true.
Proof. vm_compute. reflexivity. Qed.

(** The decimal numeral of a small number reads back as the number. *)
Lemma int_str (v : Z) : 0 <= v < 360 -> PyInt.int (PyInt.str v) = Ok v.
Proof.
  intros H.
  assert (K : numeral_ok v = true).
  { pose proof (forallb_in _ _ numeral_all) as A. apply A.
    unfold range360. rewrite <- (Z2Nat.id v) by lia. apply in_map, in_seq. lia. }
  unfold numeral_ok in K. destruct (PyInt.int (PyInt.str v)); [|discriminate].
  apply Z.eqb_eq in K. now subst.
Qed.

(** The five records, from the three representations. *)
Definition entries (hex_color rgb_str hsl_str : string) : list Color.entry :=
  [ Color.mk_entry (Color.preview ++ "  " ++ hex_color)
      "Hex Color • Click to copy" (Color.copy_command hex_color hex_color);
    Color.mk_entry (Color.preview ++ "  " ++ rgb_str)
      "RGB Color • Click to copy" (Color.copy_command rgb_str rgb_str);
    Color.mk_entry (Color.preview ++ "  " ++ hsl_str)
      "HSL Color • Click to copy" (Color.copy_command hsl_str hsl_str);
    Color.mk_entry (Color.preview ++ "  " ++ "--color: " ++ hex_color ++ ";")
      "CSS Variable • Click to copy"
      (Color.copy_command ("--color: " ++ hex_color ++ ";") "CSS Variable");
    Color.mk_entry (Color.preview ++ "  " ++ "Use hex " ++ hex_color ++ " in Tailwind")
      "Add to tailwind.config.js colors" (Color.copy_command hex_color "For Tailwind") ].

Definition rgb_string (r g b : Z) : string :=
  "rgb(" ++ PyInt.str r ++ ", " ++ PyInt.str g ++ ", " ++ PyInt.str b ++ ")".

Definition hsl_string (h s l : Z) : string :=
  "hsl(" ++ PyInt.str h ++ ", " ++ PyInt.str s ++ "%, " ++ PyInt.str l ++ "%)".

Lemma generate_color_results_entries (r g b : Z) (fmt : string) :
  exists h s l,
    Color.rgb_to_hsl (Color.clamp r) (Color.clamp g) (Color.clamp b) = Ok (h, s, l) /\
    0 <= h <= 359 /\ 0 <= s <= 100 /\ 0 <= l <= 100 /\
    Color.generate_color_results r g b fmt =
    Ok (entries (Str.upper (Color.rgb_to_hex (Color.clamp r) (Color.clamp g) (Color.clamp b)))
          (rgb_string (Color.clamp r) (Color.clamp g) (Color.clamp b))
          (hsl_string h s l)).
Proof.
  destruct (rgb_to_hsl_bytes _ _ _ (clamp_byte r) (clamp_byte g) (clamp_byte b))
    as (_ & _ & _ & h & s & l & _ & _ & _ & _ & E & ? & ? & ?).
  exists h, s, l. repeat split; try assumption; try lia.
  unfold Color.generate_color_results. cbv zeta. rewrite E. reflexivity.
Qed.

(** C2. For every integer triple, [generate_color_results] first clamps
    each channel to [0,255], so that its result is the one of the clamped
    triple, and every representation it emits encodes values valid for 8-bit
    colour: the hex string reads back as the clamped channels, the rgb string
    is made of their numerals, the hsl string of the numerals of a hue in
    [0,359] and of percentages in [0,100], and the CSS variable and the
    framework hint carry the same hex string.  The triple (999, 0, 0) that
    [parse_color] returns on "rgb(999,0,0)" is rendered as pure red. *)
Theorem render_clamps :
  (forall (r g b : Z) (fmt : string),
      let r' := Color.clamp r in
      let g' := Color.clamp g in
      let b' := Color.clamp b in
      let hex := Str.upper (Color.rgb_to_hex r' g' b') in
      0 <= r' <= 255 /\ 0 <= g' <= 255 /\ 0 <= b' <= 255 /\
      Color.generate_color_results r g b fmt =
      Color.generate_color_results r' g' b' fmt /\
      Color.hex_to_rgb hex = Ok (r', g', b') /\
      PyInt.int (PyInt.str r') = Ok r' /\
      PyInt.int (PyInt.str g') = Ok g' /\
      PyInt.int (PyInt.str b') = Ok b' /\
      exists h s l,
        Color.rgb_to_hsl r' g' b' = Ok (h, s, l) /\
        0 <= h <= 359 /\ 0 <= s <= 100 /\ 0 <= l <= 100 /\
        PyInt.int (PyInt.str h) = Ok h /\
        PyInt.int (PyInt.str s) = Ok s /\
        PyInt.int (PyInt.str l) = Ok l /\
        Color.generate_color_results r g b fmt =
        Ok (entries hex (rgb_string r' g' b') (hsl_string h s l))) /\
  Color.parse_color "rgb(999,0,0)" = Ok (Some ("rgb", 999, 0, 0)) /\
  (forall fmt : string,
      Color.generate_color_results 999 0 0 fmt =
      Ok (entries "#FF0000" "rgb(255, 0, 0)" "hsl(0, 100%, 50%)")).
Proof.
  split; [|split; [|intros fmt]; vm_compute; reflexivity].
  intros r g b fmt r' g' b' hex.
  pose proof (clamp_byte r) as Hr. pose proof (clamp_byte g) as Hg.
  pose proof (clamp_byte b) as Hb. fold r' in Hr. fold g' in Hg. fold b' in Hb.
  destruct (generate_color_results_entries r g b fmt) as (h & s & l & E & ? & ? & ? & G).
  repeat (split; [first [assumption | apply int_str; lia | idtac]|]).
  - unfold Color.generate_color_results. unfold r', g', b'.
    now rewrite !clamp_idem.
  - apply upper_hex_decodes; assumption.
  - exists h, s, l. fold r' g' b' in E, G. fold hex in G.
    repeat split; try assumption; try lia; apply int_str; lia.
Qed.

(** C7. [generate_color_results 255 87 51] is a list of exactly five
    records, for the hex, rgb, hsl, CSS-variable and framework-hint
    representations in this order, and the hex one shows "#FF5733"; for every
    input the result has these five records in this order, with the same
    labels. *)
Theorem render_five_entries :
  (forall fmt : string,
      Color.generate_color_results 255 87 51 fmt =
      Ok (entries "#FF5733" "rgb(255, 87, 51)" "hsl(10, 100%, 60%)")) /\
  (forall (r g b : Z) (fmt : string),
      exists hex rgb_str hsl_str,
        Color.generate_color_results r g b fmt = Ok (entries hex rgb_str hsl_str) /\
        List.length (entries hex rgb_str hsl_str) = 5%nat /\
        List.map Color.subtitle (entries hex rgb_str hsl_str) =
        [ "Hex Color • Click to copy"; "RGB Color • Click to copy";
          "HSL Color • Click to copy"; "CSS Variable • Click to copy";
          "Add to tailwind.config.js colors" ]) /\
  List.map Color.title (entries "#FF5733" "rgb(255, 87, 51)" "hsl(10, 100%, 60%)") =
  [ "█████  #FF5733"; "█████  rgb(255, 87, 51)"; "█████  hsl(10, 100%, 60%)";
    "█████  --color: #FF5733;"; "█████  Use hex #FF5733 in Tailwind" ].
Proof.
  split; [|split].
  - intros fmt. vm_compute. reflexivity.
  - intros r g b fmt.
    destruct (generate_color_results_entries r g b fmt) as (h & s & l & _ & _ & _ & _ & G).
    eexists _, _, _. split; [exact G|]. split; reflexivity.
  - reflexivity.
Qed.

(** * Further properties of the code *)

(** ** [hsl_to_rgb_tuple] on hues up to 360 and percentages up to 100 *)

Definition range361 : list Z := List.map Z.of_nat (seq 0 361).
Definition range101 : list Z := List.map Z.of_nat (seq 0 101).

Lemma in_range361 (z : Z) : 0 <= z <= 360 -> In z range361.
Proof.
  intros H. unfold range361. rewrite <- (Z2Nat.id z) by lia.
  apply in_map, in_seq. lia.
Qed.

Lemma in_range101 (z : Z) : 0 <= z <= 100 -> In z range101.
Proof.
  intros H. unfold range101. rewrite <- (Z2Nat.id z) by lia.
  apply in_map, in_seq. lia.
Qed.

(** [z / 360.0] and [z / 100.0] *)
Definition turn (z : Z) : float := (of_uint63 (Uint63.of_Z z) / 360)%float.
Definition pct (z : Z) : float := (of_uint63 (Uint63.of_Z z) / 100)%float.

Lemma finite_small : List.forallb finite_byte range361 = true.
Proof. vm_compute. reflexivity. Qed.

Lemma truediv_small (z : Z) (d : float) :
  0 <= z <= 360 -> (d =? 0)%float = false ->
  PyFloat.truediv z d = Ok (of_uint63 (Uint63.of_Z z) / d)%float.
Proof.
  intros H Hd. unfold PyFloat.truediv, PyFloat.of_int.
  rewrite Z.abs_eq by lia.
  assert (E1 : (z <? 2 ^ 63) = true) by (apply Z.ltb_lt; lia).
  assert (E2 : (z <? 0) = false) by (apply Z.ltb_ge; lia).
  pose proof (forallb_in _ _ finite_small z (in_range361 z H)) as E3.
  unfold finite_byte in E3. apply negb_true_iff in E3.
  rewrite E1, E3, E2. cbn [bind]. now rewrite Hd.
Qed.

(** [_v] behind the reduction of its hue, and the two bounds [m1], [m2]
    that [hls_to_rgb] hands to it. *)
Definition v_core (m1 m2 hue : float) : float :=
  (if hue <? Colorsys.ONE_SIXTH then m1 + (m2 - m1) * hue * 6
   else if hue <? 0.5 then m2
   else if hue <? Colorsys.TWO_THIRD then m1 + (m2 - m1) * (Colorsys.TWO_THIRD - hue) * 6
   else m1)%float.

Definition m2_of (l s : float) : float :=
  (if l <=? 0.5 then l * (1 + s) else l + s - l * s)%float.

Definition m1_of (l s : float) : float := (2 * l - m2_of l s)%float.

Lemma hls_to_rgb_core (h l s : float) :
  Colorsys.hls_to_rgb h l s =
  if (s =? 0)%float then (l, l, l)
  else (v_core (m1_of l s) (m2_of l s) (PyFloat.rem1 (h + Colorsys.ONE_THIRD)),
        v_core (m1_of l s) (m2_of l s) (PyFloat.rem1 h),
        v_core (m1_of l s) (m2_of l s) (PyFloat.rem1 (h - Colorsys.ONE_THIRD))).
Proof. reflexivity. Qed.

(** The three reduced hues of a hue in degrees. *)
Definition hue_points_of (z : Z) : list float :=
  [ PyFloat.rem1 (turn z + Colorsys.ONE_THIRD);
    PyFloat.rem1 (turn z);
    PyFloat.rem1 (turn z - Colorsys.ONE_THIRD) ]%float.

Definition hue_points : list float :=
  Eval vm_compute in List.flat_map hue_points_of range361.

Lemma hue_points_eq : hue_points = List.flat_map hue_points_of range361.
Proof. vm_compute. reflexivity. Qed.

Lemma in_hue_points (z : Z) (t : float) :
  0 <= z <= 360 -> In t (hue_points_of z) -> In t hue_points.
Proof.
  intros Hz Ht. rewrite hue_points_eq. apply in_flat_map.
  exists z. split; [apply in_range361, Hz | exact Ht].
Qed.

Definition pct_table : list float := Eval vm_compute in List.map pct range101.

Lemma pct_table_eq : pct_table = List.map pct range101.
Proof. vm_compute. reflexivity. Qed.

Lemma in_pct_table (z : Z) : 0 <= z <= 100 -> In (pct z) pct_table.
Proof. intros H. rewrite pct_table_eq. apply in_map, in_range101, H. Qed.

(** A channel in [0, 1] up to rounding: 255 times it is in [0, 256). *)
Definition channel_ok (x : float) : bool := in_range (x * 255) 256.

Definition channels_ok (l s : float) : bool :=
  if (s =? 0)%float then channel_ok l
  else List.forallb (fun t => channel_ok (v_core (m1_of l s) (m2_of l s) t)) hue_points.

(** Checked by evaluation on the 101 x 101 pairs and the 1083 reduced hues. *)
Lemma channels_all :
  List.forallb (fun l => List.forallb (fun s => channels_ok l s) pct_table) pct_table = true.
Proof. vm_cast_no_check (eq_refl true). Qed.

Lemma to_int_below_256 (x : float) :
  in_range x 256 = true -> exists v, PyFloat.to_int x = Ok v /\ 0 <= v < 256.
Proof.
  apply (to_int_in_range x 256 4503599627370496 (-44) 256);
    [vm_compute; reflexivity | lia | lia | reflexivity].
Qed.

Lemma hsl_unfold (h s l : Z) :
  0 <= h <= 360 -> 0 <= s <= 100 -> 0 <= l <= 100 ->
  Color.hsl_to_rgb_tuple h s l =
  (let '(r, g, b) := Colorsys.hls_to_rgb (turn h) (pct l) (pct s) in
   r' <- PyFloat.to_int (r * 255) ;;
   g' <- PyFloat.to_int (g * 255) ;;
   b' <- PyFloat.to_int (b * 255) ;;
   Ok (r', g', b')).
Proof.
  intros Hh Hs Hl. unfold Color.hsl_to_rgb_tuple.
  rewrite (truediv_small h 360), (truediv_small s 100), (truediv_small l 100);
    try lia; reflexivity.
Qed.

Lemma hsl_small (h s l : Z) :
  0 <= h <= 360 -> 0 <= s <= 100 -> 0 <= l <= 100 ->
  exists r g b,
    Color.hsl_to_rgb_tuple h s l = Ok (r, g, b) /\
    0 <= r <= 255 /\ 0 <= g <= 255 /\ 0 <= b <= 255.
Proof.
  intros Hh Hs Hl. rewrite (hsl_unfold h s l Hh Hs Hl), hls_to_rgb_core.
  pose proof (forallb_in _ _ channels_all _ (in_pct_table l Hl)) as K.
  pose proof (forallb_in _ _ K _ (in_pct_table s Hs)) as C. clear K.
  unfold channels_ok in C.
  destruct (pct s =? 0)%float.
  - destruct (to_int_below_256 _ C) as (v & E & ?).
    exists v, v, v. rewrite E. cbn [bind]. repeat split; lia.
  - pose proof (forallb_in _ _ C) as P.
    assert (P1 := P _ (in_hue_points h _ Hh (or_introl eq_refl))).
    assert (P2 := P _ (in_hue_points h _ Hh (or_intror (or_introl eq_refl)))).
    assert (P3 := P _ (in_hue_points h _ Hh (or_intror (or_intror (or_introl eq_refl))))).
    destruct (to_int_below_256 _ P1) as (r & Er & ?).
    destruct (to_int_below_256 _ P2) as (g & Eg & ?).
    destruct (to_int_below_256 _ P3) as (b & Eb & ?).
    exists r, g, b. rewrite Er, Eg, Eb. cbn [bind]. repeat split; lia.
Qed.

(** X1. For a hue of 0 to 360 degrees and a saturation and a lightness of
    0 to 100 percent, [hsl_to_rgb_tuple] raises nothing and returns three
    channels in [0,255]. *)
Theorem hsl_to_rgb_tuple_bytes (h s l : Z) :
  0 <= h <= 360 -> 0 <= s <= 100 -> 0 <= l <= 100 ->
  exists r g b,
    Color.hsl_to_rgb_tuple h s l = Ok (r, g, b) /\
    0 <= r <= 255 /\ 0 <= g <= 255 /\ 0 <= b <= 255.
Proof. apply hsl_small. Qed.

Lemma hsl_to_rgb_tuple_bytes_witness :
  exists r g b,
    Color.hsl_to_rgb_tuple 210 65 40 = Ok (r, g, b) /\
    0 <= r <= 255 /\ 0 <= g <= 255 /\ 0 <= b <= 255.
Proof. apply hsl_to_rgb_tuple_bytes; lia. Defined.

(** ** Greys and black *)

Definition grey_level_ok (l : Z) : bool :=
  match PyFloat.to_int (pct l * 255) with
  | Ok v => v =? l * 255 / 100
  | Raise _ => false
  end.

Lemma grey_levels : List.forallb grey_level_ok range101 = true.
Proof. vm_compute. reflexivity. Qed.

(** X2. With a saturation of 0 the hue plays no part: whatever the hue, for
    a lightness l of 0 to 100 the result is the grey whose three channels
    are the integer part of 255 l / 100, unless the hue is too large to be
    converted, which raises. *)
Theorem hsl_zero_saturation (h l : Z) :
  0 <= l <= 100 ->
  Color.hsl_to_rgb_tuple h 0 l =
  (_ <- PyFloat.truediv h 360 ;;
   Ok (l * 255 / 100, l * 255 / 100, l * 255 / 100)).
Proof.
  intros Hl. unfold Color.hsl_to_rgb_tuple.
  destruct (PyFloat.truediv h 360) as [x|e]; [|reflexivity]. cbn [bind].
  rewrite (truediv_small 0 100), (truediv_small l 100) by (lia || reflexivity).
  cbn [bind]. rewrite hls_to_rgb_core.
  change (of_uint63 (Uint63.of_Z 0) / 100 =? 0)%float with true. cbv iota.
  pose proof (forallb_in _ _ grey_levels l (in_range101 l Hl)) as K.
  unfold grey_level_ok, pct in K.
  destruct (PyFloat.to_int (of_uint63 (Uint63.of_Z l) / 100 * 255)) as [v|]; [|discriminate].
  apply Z.eqb_eq in K. now subst.
Qed.

Lemma hsl_zero_saturation_witness :
  Color.hsl_to_rgb_tuple 123456789 0 50 =
  (_ <- PyFloat.truediv 123456789 360 ;; Ok (50 * 255 / 100, 50 * 255 / 100, 50 * 255 / 100)).
Proof. apply hsl_zero_saturation. lia. Defined.

Lemma to_int_below_1 (x : float) :
  in_range x 1 = true -> PyFloat.to_int x = Ok 0.
Proof.
  intros H.
  destruct (to_int_in_range x 1 4503599627370496 (-52) 1) as (v & E & Hv);
    [vm_compute; reflexivity | lia | lia | reflexivity | exact H |].
  rewrite E. f_equal. lia.
Qed.

Definition dark (x : float) : bool := in_range (x * 255) 1.

Lemma dark_to_int (x : float) : dark x = true -> PyFloat.to_int (x * 255) = Ok 0.
Proof. apply to_int_below_1. Qed.

Definition black_ok (s : float) : bool :=
  if (s =? 0)%float then dark (pct 0)
  else List.forallb (fun t => dark (v_core (m1_of (pct 0) s) (m2_of (pct 0) s) t)) hue_points.

Lemma black_all : List.forallb black_ok pct_table = true.
Proof. vm_compute. reflexivity. Qed.

(** X3. A lightness of 0 is black: for a hue of 0 to 360 and a saturation
    of 0 to 100, [hsl_to_rgb_tuple h s 0] is (0, 0, 0). *)
Theorem hsl_zero_lightness (h s : Z) :
  0 <= h <= 360 -> 0 <= s <= 100 ->
  Color.hsl_to_rgb_tuple h s 0 = Ok (0, 0, 0).
Proof.
  intros Hh Hs. rewrite (hsl_unfold h s 0) by lia. rewrite hls_to_rgb_core.
  pose proof (forallb_in _ _ black_all _ (in_pct_table s Hs)) as C.
  unfold black_ok in C. fold (pct 0).
  destruct (pct s =? 0)%float.
  - now rewrite (dark_to_int _ C).
  - pose proof (forallb_in _ _ C) as P.
    rewrite (dark_to_int _ (P _ (in_hue_points h _ Hh (or_introl eq_refl)))).
    rewrite (dark_to_int _ (P _ (in_hue_points h _ Hh (or_intror (or_introl eq_refl))))).
    rewrite (dark_to_int _
               (P _ (in_hue_points h _ Hh (or_intror (or_intror (or_introl eq_refl)))))).
    reflexivity.
Qed.

Lemma hsl_zero_lightness_witness : Color.hsl_to_rgb_tuple 300 80 0 = Ok (0, 0, 0).
Proof. apply hsl_zero_lightness; lia. Defined.

Definition grey_ok (v : Z) : bool :=
  match Color.rgb_to_hsl v v v with
  | Ok (h, s, l) =>
      (h =? 0) && (s =? 0) && (l =? v * 100 / 255) &&
      match Color.hsl_to_rgb_tuple h s l with
      | Ok (r, g, b) => (r =? g) && (g =? b) && (v - 3 <=? r) && (r <=? v)
      | Raise _ => false
      end
  | Raise _ => false
  end.

Lemma greys_all : List.forallb grey_ok range256 = true.
Proof. vm_compute. reflexivity. Qed.

(** X4. A grey has hue 0 and saturation 0, and its lightness is the integer
    part of 100 v / 255: [rgb_to_hsl v v v = (0, 0, 100 v / 255)] for every
    byte v. *)
Theorem rgb_to_hsl_grey (v : Z) :
  0 <= v <= 255 -> Color.rgb_to_hsl v v v = Ok (0, 0, v * 100 / 255).
Proof.
  intros Hv. pose proof (range256_forall _ greys_all v ltac:(lia)) as K.
  unfold grey_ok in K.
  destruct (Color.rgb_to_hsl v v v) as [[[h s] l]|]; [|discriminate].
  rewrite !andb_true_iff, !Z.eqb_eq in K.
  destruct K as [[[-> ->] ->] _]. reflexivity.
Qed.

Lemma rgb_to_hsl_grey_witness : Color.rgb_to_hsl 128 128 128 = Ok (0, 0, 128 * 100 / 255).
Proof. apply rgb_to_hsl_grey. lia. Defined.

(** X5. The round trip of a grey through HSL is lossy but bounded: it comes
    back as a grey at most 3 below the original, never above. *)
Theorem grey_round_trip (v : Z) :
  0 <= v <= 255 ->
  exists h s l w,
    Color.rgb_to_hsl v v v = Ok (h, s, l) /\
    Color.hsl_to_rgb_tuple h s l = Ok (w, w, w) /\
    v - 3 <= w <= v.
Proof.
  intros Hv. pose proof (range256_forall _ greys_all v ltac:(lia)) as K.
  unfold grey_ok in K.
  destruct (Color.rgb_to_hsl v v v) as [[[h s] l]|]; [|discriminate].
  apply andb_true_iff in K. destruct K as [_ K].
  destruct (Color.hsl_to_rgb_tuple h s l) as [[[r g] b]|] eqn:E; [|discriminate].
  rewrite !andb_true_iff, !Z.eqb_eq, !Z.leb_le in K.
  destruct K as [[[E1 E2] ?] ?]. subst r g.
  exists h, s, l, b. split; [reflexivity|]. split; [exact E|]. lia.
Qed.

Lemma grey_round_trip_witness :
  exists h s l w,
    Color.rgb_to_hsl 5 5 5 = Ok (h, s, l) /\
    Color.hsl_to_rgb_tuple h s l = Ok (w, w, w) /\
    5 - 3 <= w <= 5.
Proof. apply grey_round_trip. lia. Defined.

(** ** Saturation and lightness of a byte colour *)

Lemma rgb_to_hsl_sl (r g b : Z) :
  0 <= r <= 255 -> 0 <= g <= 255 -> 0 <= b <= 255 ->
  let hi := Z.max (Z.max r g) b in
  let lo := Z.min (Z.min r g) b in
  exists h' s' l',
    Color.rgb_to_hsl r g b = Ok (h', s', l') /\
    PyFloat.to_int (saturation (norm hi) (norm lo) * 100) = Ok s' /\
    PyFloat.to_int (lightness (norm hi) (norm lo) * 100) = Ok l'.
Proof.
  intros Hr Hg Hb hi lo.
  destruct (rgb_to_hsl_bytes r g b Hr Hg Hb)
    as (h & l & s & h' & s' & l' & E & _ & Es & El & Ehsl & _).
  destruct (rgb_to_hls_ls _ _ _ _ _ _ E) as [Wl Ws].
  rewrite (max3_norm r g b), (min3_norm r g b) in Wl, Ws by lia.
  subst l s. exists h', s', l'. auto.
Qed.

(** X6. Saturation and lightness depend on the largest and the smallest
    channel only: two byte colours with the same maximum and the same
    minimum, in particular two orderings of the same three channels, get the
    same saturation and the same lightness from [rgb_to_hsl]. *)
Theorem rgb_to_hsl_extremes (r g b r2 g2 b2 : Z) :
  0 <= r <= 255 -> 0 <= g <= 255 -> 0 <= b <= 255 ->
  0 <= r2 <= 255 -> 0 <= g2 <= 255 -> 0 <= b2 <= 255 ->
  Z.max (Z.max r g) b = Z.max (Z.max r2 g2) b2 ->
  Z.min (Z.min r g) b = Z.min (Z.min r2 g2) b2 ->
  exists h h2 s l,
    Color.rgb_to_hsl r g b = Ok (h, s, l) /\
    Color.rgb_to_hsl r2 g2 b2 = Ok (h2, s, l).
Proof.
  intros Hr Hg Hb Hr2 Hg2 Hb2 Emax Emin.
  destruct (rgb_to_hsl_sl r g b Hr Hg Hb) as (h & s & l & E & Es & El).
  destruct (rgb_to_hsl_sl r2 g2 b2 Hr2 Hg2 Hb2) as (h2 & s2 & l2 & E2 & Es2 & El2).
  rewrite <- Emax, <- Emin in Es2, El2.
  rewrite Es in Es2. rewrite El in El2.
  injection Es2 as <-. injection El2 as <-.
  exists h, h2, s, l. auto.
Qed.

Lemma rgb_to_hsl_extremes_witness :
  exists h h2 s l,
    Color.rgb_to_hsl 200 10 30 = Ok (h, s, l) /\
    Color.rgb_to_hsl 30 200 10 = Ok (h2, s, l).
Proof. apply rgb_to_hsl_extremes; lia. Defined.

(** ** Every hexadecimal colour is detected *)

Lemma rstrip_solid (p : ascii -> bool) (s : string) :
  Str.forallb (fun c => negb (p c)) s = true -> Str.rstrip p s = s.
Proof.
  induction s as [|c s IH]; [reflexivity|].
  simpl. rewrite andb_true_iff, negb_true_iff. intros [Hc Hs].
  rewrite (IH Hs), Hc. now destruct s.
Qed.

Lemma lstrip_solid (p : ascii -> bool) (s : string) :
  Str.forallb (fun c => negb (p c)) s = true -> Str.lstrip p s = s.
Proof.
  destruct s as [|c s]; [reflexivity|].
  simpl. rewrite andb_true_iff, negb_true_iff. now intros [-> _].
Qed.

Lemma strip_solid (s : string) :
  Str.forallb (fun c => negb (Str.is_space c)) s = true -> Str.strip s = s.
Proof.
  intros H. unfold Str.strip. now rewrite (lstrip_solid _ _ H), (rstrip_solid _ _ H).
Qed.

Definition hex_char_ok (c : ascii) : bool :=
  implb (Str.is_hex c)
        (negb (Str.is_space c) && Str.is_lower_hex (Str.lower_char c) &&
         negb (Ascii.eqb "#" c)).

Lemma hex_chars_ok : List.forallb hex_char_ok all_ascii = true.
Proof. vm_compute. reflexivity. Qed.

Lemma hex_char (c : ascii) :
  Str.is_hex c = true ->
  Str.is_space c = false /\ Str.is_lower_hex (Str.lower_char c) = true /\
  Ascii.eqb "#" c = false.
Proof.
  intros H. pose proof (ascii_forall _ hex_chars_ok c) as K.
  unfold hex_char_ok in K. rewrite H in K. simpl in K.
  rewrite !andb_true_iff, !negb_true_iff in K. tauto.
Qed.

Lemma lower_length (s : string) : String.length (Str.lower s) = String.length s.
Proof.
  unfold Str.lower. induction s as [|c s IH]; simpl; [reflexivity | now rewrite IH].
Qed.

Lemma lower_of_hex (t : string) :
  Str.forallb Str.is_hex t = true ->
  Str.forallb Str.is_lower_hex (Str.lower t) = true.
Proof.
  unfold Str.lower. induction t as [|c t IH]; [reflexivity|].
  simpl. rewrite !andb_true_iff. intros [Hc Ht].
  split; [apply (hex_char c Hc) | exact (IH Ht)].
Qed.

(** The hexadecimal pattern matches three or six lower-case digits, with
    or without the '#'. *)
Lemma hex_re_matches (t : string) :
  String.length t = 3%nat \/ String.length t = 6%nat ->
  Str.forallb Str.is_lower_hex t = true ->
  Re.rmatch Color.hex_re t = Some [(1%nat, t)] /\
  Re.rmatch Color.hex_re (String "#" t) = Some [(1%nat, t)].
Proof.
  intros Hlen Ht.
  destruct t as [|a [|b [|c [|d [|e [|f [|x ?]]]]]]];
    try (exfalso; simpl in Hlen; lia);
    cbn [Str.forallb] in Ht; rewrite ?andb_true_iff in Ht.
  - destruct Ht as (Ha & Hb & Hc & _).
    pose proof (lower_hex_not_hash a Ha) as Na.
    unfold Re.rmatch, Color.hex_re. cbn [Re.run String.length Nat.eqb].
    rewrite Na, Ha, Hb, Hc. change (Ascii.eqb "#" "#") with true.
    cbn. auto.
  - destruct Ht as (Ha & Hb & Hc & Hd & He & Hf & _).
    pose proof (lower_hex_not_hash a Ha) as Na.
    unfold Re.rmatch, Color.hex_re. cbn [Re.run String.length Nat.eqb].
    rewrite Na, Ha, Hb, Hc, Hd, He, Hf. change (Ascii.eqb "#" "#") with true.
    cbn. auto.
Qed.

Definition same_result (a b : result Z) : bool :=
  match a, b with
  | Ok x, Ok y => x =? y
  | _, _ => false
  end.

Definition lower_pair_ok (a : ascii) : bool :=
  if Str.is_hex a then
    List.forallb
      (fun b =>
         if Str.is_hex b
         then same_result
                (PyInt.parse 16 (String (Str.lower_char a)
                                   (String (Str.lower_char b) EmptyString)))
                (PyInt.parse 16 (String a (String b EmptyString)))
         else true)
      all_ascii
  else true.

Lemma lower_pairs_ok : List.forallb lower_pair_ok all_ascii = true.
Proof. vm_compute. reflexivity. Qed.

Lemma parse_lower_pair (a b : ascii) :
  Str.is_hex a = true -> Str.is_hex b = true ->
  PyInt.parse 16 (String (Str.lower_char a) (String (Str.lower_char b) EmptyString)) =
  PyInt.parse 16 (String a (String b EmptyString)).
Proof.
  intros Ha Hb. pose proof (ascii_forall _ lower_pairs_ok a) as K.
  unfold lower_pair_ok in K. rewrite Ha in K.
  pose proof (forallb_in _ _ K b (in_all_ascii b)) as L. cbv beta in L.
  rewrite Hb in L. unfold same_result in L.
  destruct (PyInt.parse 16 (String (Str.lower_char a) _)) as [x|]; [|discriminate].
  destruct (PyInt.parse 16 (String a _)) as [y|]; [|discriminate].
  apply Z.eqb_eq in L. now subst.
Qed.

(** [hex_to_rgb] does not tell the case of the digits. *)
Lemma hex_to_rgb_lower (t : string) :
  hex_3_or_6 t = true -> Color.hex_to_rgb (Str.lower t) = Color.hex_to_rgb t.
Proof.
  unfold hex_3_or_6. rewrite andb_true_iff. intros [Hlen Ht].
  assert (E1 : Str.lstrip (Ascii.eqb "#") t = t).
  { destruct t as [|c t]; [reflexivity|]. simpl in Ht. apply andb_true_iff in Ht.
    apply lstrip_fixed, (hex_char c (proj1 Ht)). }
  assert (E2 : Str.lstrip (Ascii.eqb "#") (Str.lower t) = Str.lower t).
  { pose proof (lower_of_hex t Ht) as Hl.
    destruct t as [|c t]; [reflexivity|].
    change (Str.lower (String c t)) with (String (Str.lower_char c) (Str.lower t)) in *.
    simpl in Hl. apply andb_true_iff in Hl.
    apply lstrip_fixed, lower_hex_not_hash, (proj1 Hl). }
  unfold Color.hex_to_rgb. rewrite E1, E2, lower_length.
  destruct t as [|a [|b [|c [|d [|e [|f [|x ?]]]]]]]; try discriminate Hlen;
    cbn [Str.forallb] in Ht; rewrite ?andb_true_iff in Ht;
    unfold Str.lower;
    cbn [Str.map String.length Nat.eqb Str.double_each Str.slice substring].
  - destruct Ht as (Ha & Hb & Hc & _).
    now rewrite !parse_lower_pair.
  - destruct Ht as (Ha & Hb & Hc & Hd & He & Hf & _).
    now rewrite !parse_lower_pair.
Qed.

Lemma hex_no_space (t : string) :
  Str.forallb Str.is_hex t = true ->
  Str.forallb (fun c => negb (Str.is_space c)) t = true.
Proof.
  apply forallb_impl. intros c Hc. apply negb_true_iff, (hex_char c Hc).
Qed.

Lemma parse_color_hex (t : string) :
  hex_3_or_6 t = true ->
  exists r g b,
    Color.hex_to_rgb t = Ok (r, g, b) /\
    0 <= r <= 255 /\ 0 <= g <= 255 /\ 0 <= b <= 255 /\
    Color.parse_color t = Ok (Some ("hex", r, g, b)) /\
    Color.parse_color (String "#" t) = Ok (Some ("hex", r, g, b)).
Proof.
  intros H.
  assert (E : Str.lstrip (Ascii.eqb "#") t = t).
  { unfold hex_3_or_6 in H. apply andb_true_iff in H. destruct H as [_ Ht].
    destruct t as [|c t]; [reflexivity|]. simpl in Ht. apply andb_true_iff in Ht.
    apply lstrip_fixed, (hex_char c (proj1 Ht)). }
  destruct (hex_to_rgb_accepts t) as (r & g & b & Eh & Hr & Hg & Hb);
    [now rewrite E|].
  exists r, g, b. repeat (split; [assumption|]).
  pose proof (hex_to_rgb_lower t H) as El.
  unfold hex_3_or_6 in H. apply andb_true_iff in H. destruct H as [Hlen Ht].
  assert (Hlen' : String.length (Str.lower t) = 3%nat \/ String.length (Str.lower t) = 6%nat).
  { rewrite lower_length. apply orb_true_iff in Hlen.
    destruct Hlen as [L|L]; apply Nat.eqb_eq in L; auto. }
  destruct (hex_re_matches (Str.lower t) Hlen' (lower_of_hex t Ht)) as [M1 M2].
  pose proof (hex_no_space t Ht) as Hs.
  split.
  - unfold Color.parse_color. rewrite (strip_solid t Hs), M1.
    cbn [Re.group Nat.eqb]. now rewrite El, Eh.
  - unfold Color.parse_color.
    rewrite (strip_solid (String "#" t)) by (simpl; exact Hs).
    change (Str.lower (String "#" t)) with (String "#" (Str.lower t)).
    rewrite M2. cbn [Re.group Nat.eqb]. now rewrite El, Eh.
Qed.

(** X7. Every hexadecimal colour is detected: a string of three or six
    hexadecimal digits of either case, with or without a leading '#', is
    recognised as "hex", and its channels are those that [hex_to_rgb] gives
    for it, each in [0,255]. *)
Theorem parse_color_hex_complete (t : string) :
  hex_3_or_6 t = true ->
  exists r g b,
    Color.hex_to_rgb t = Ok (r, g, b) /\
    0 <= r <= 255 /\ 0 <= g <= 255 /\ 0 <= b <= 255 /\
    Color.parse_color t = Ok (Some ("hex", r, g, b)) /\
    Color.parse_color (String "#" t) = Ok (Some ("hex", r, g, b)).
Proof. apply parse_color_hex. Qed.

Lemma parse_color_hex_complete_witness :
  exists r g b,
    Color.hex_to_rgb "Fa0" = Ok (r, g, b) /\
    0 <= r <= 255 /\ 0 <= g <= 255 /\ 0 <= b <= 255 /\
    Color.parse_color "Fa0" = Ok (Some ("hex", r, g, b)) /\
    Color.parse_color "#Fa0" = Ok (Some ("hex", r, g, b)).
Proof. apply (parse_color_hex_complete "Fa0"). reflexivity. Defined.

(** ** [parse_color] reads back what [generate_color_results] shows *)

Lemma parse_rgb_text (w1 w2 d1 a1 b1 d2 a2 b2 d3 w3 t : string) :
  all_space [w1; w2; a1; b1; a2; b2; w3] = true ->
  all_numbers [d1; d2; d3] = true ->
  all_short [d1; d2; d3] = true ->
  Color.parse_color (rgb_text w1 w2 d1 a1 b1 d2 a2 b2 d3 w3 ++ t) =
  Ok (Some ("rgb", decimal_value d1, decimal_value d2, decimal_value d3)).
Proof.
  intros Hsp Hnu Hsh. destruct (numbers_inv _ _ _ Hnu) as (N1 & N2 & N3).
  unfold Color.parse_color.
  rewrite (rgb_text_normal _ _ _ _ _ _ _ _ _ _ Hsp Hnu). cbv zeta.
  set (t' := Str.lower _).
  assert (Hhex : Re.rmatch Color.hex_re
                   (rgb_text w1 w2 d1 a1 b1 d2 a2 b2 d3 w3 ++ t') = None)
    by (apply (hex_re_first "r"); reflexivity).
  rewrite Hhex, (rgb_re_matches _ _ _ _ _ _ _ _ _ _ Hsp Hnu).
  now rewrite int_groups_3.
Qed.

Lemma hsl_re_first (c : ascii) (x : string) :
  Ascii.eqb "h" c = false -> Re.rmatch Color.hsl_re (String c x) = None.
Proof.
  intros Hc. unfold Re.rmatch, Color.hsl_re. cbn [Re.run Re.word]. now rewrite Hc.
Qed.

Lemma parse_hsl_text (w1 w2 d1 a1 b1 d2 a2 b2 d3 w3 : string) (p2 p3 : bool) (t : string) :
  all_space [w1; w2; a1; b1; a2; b2; w3] = true ->
  all_numbers [d1; d2; d3] = true ->
  all_short [d1; d2; d3] = true ->
  Color.parse_color (hsl_text w1 w2 d1 a1 b1 d2 p2 a2 b2 d3 p3 w3 ++ t) =
  ('(r, g, b) <- Color.hsl_to_rgb_tuple
                   (decimal_value d1) (decimal_value d2) (decimal_value d3) ;;
   Ok (Some ("hsl", r, g, b))).
Proof.
  intros Hsp Hnu Hsh. destruct (numbers_inv _ _ _ Hnu) as (N1 & N2 & N3).
  unfold Color.parse_color.
  rewrite (hsl_text_normal _ _ _ _ _ _ _ _ _ _ Hsp Hnu). cbv zeta.
  set (t' := Str.lower _).
  set (x := hsl_text w1 w2 d1 a1 b1 d2 p2 a2 b2 d3 p3 w3 ++ t').
  assert (Hhex : Re.rmatch Color.hex_re x = None)
    by (apply (hex_re_first "h"); reflexivity).
  assert (Hrgb : Re.rmatch Color.rgb_re x = None)
    by (apply (rgb_re_first "h"); reflexivity).
  assert (Hcomma : Re.rmatch Color.comma_re x = None)
    by (apply (comma_re_first "h"); reflexivity).
  rewrite Hhex, Hrgb, Hcomma. unfold x.
  rewrite (hsl_re_matches _ _ _ _ _ _ _ _ _ _ Hsp Hnu).
  now rewrite int_groups_3.
Qed.

Definition numeral_shape_ok (v : Z) : bool :=
  is_number (PyInt.str v) && short (PyInt.str v) && (decimal_value (PyInt.str v) =? v).

Lemma numeral_shapes : List.forallb numeral_shape_ok range361 = true.
Proof. vm_compute. reflexivity. Qed.

(** The numeral of a small number is a short string of digits that denotes
    it. *)
Lemma str_number (v : Z) :
  0 <= v <= 360 ->
  is_number (PyInt.str v) = true /\ short (PyInt.str v) = true /\
  decimal_value (PyInt.str v) = v.
Proof.
  intros H. pose proof (forallb_in _ _ numeral_shapes v (in_range361 v H)) as K.
  unfold numeral_shape_ok in K. rewrite !andb_true_iff in K.
  destruct K as [[K1 K2] K3]. apply Z.eqb_eq in K3. auto.
Qed.

Lemma parse_rgb_string (r g b : Z) :
  0 <= r <= 360 -> 0 <= g <= 360 -> 0 <= b <= 360 ->
  Color.parse_color (rgb_string r g b) = Ok (Some ("rgb", r, g, b)).
Proof.
  intros Hr Hg Hb.
  destruct (str_number r Hr) as (Nr & Sr & Vr), (str_number g Hg) as (Ng & Sg & Vg),
           (str_number b Hb) as (Nb & Sb & Vb).
  pose proof (parse_rgb_text "" "" (PyInt.str r) "" " " (PyInt.str g) "" " "
                (PyInt.str b) "" "") as P.
  rewrite app_empty_r, Vr, Vg, Vb in P.
  unfold rgb_text, triple_text in P. rewrite !app_assoc in P.
  apply P; [reflexivity| |now apply shorts_inv].
  unfold all_numbers. cbn [List.forallb]. now rewrite Nr, Ng, Nb.
Qed.

Lemma parse_hsl_string (h s l : Z) :
  0 <= h <= 360 -> 0 <= s <= 360 -> 0 <= l <= 360 ->
  Color.parse_color (hsl_string h s l) =
  ('(r, g, b) <- Color.hsl_to_rgb_tuple h s l ;; Ok (Some ("hsl", r, g, b))).
Proof.
  intros Hh Hs Hl.
  destruct (str_number h Hh) as (Nh & Sh & Vh), (str_number s Hs) as (Ns & Ss & Vs),
           (str_number l Hl) as (Nl & Sl & Vl).
  pose proof (parse_hsl_text "" "" (PyInt.str h) "" " " (PyInt.str s) "" " "
                (PyInt.str l) "" true true "") as P.
  rewrite app_empty_r, Vh, Vs, Vl in P.
  unfold hsl_text in P.
  apply P; [reflexivity| |now apply shorts_inv].
  unfold all_numbers. cbn [List.forallb]. now rewrite Nh, Ns, Nl.
Qed.

Definition upper_hex_ok (z : Z) : bool :=
  match Str.upper (PyInt.format_02x z) with
  | String a (String b EmptyString) => Str.is_hex a && Str.is_hex b
  | _ => false
  end.

Lemma upper_hex_all : List.forallb upper_hex_ok range256 = true.
Proof. vm_compute. reflexivity. Qed.

Lemma upper_hex_shape (r g b : Z) :
  0 <= r <= 255 -> 0 <= g <= 255 -> 0 <= b <= 255 ->
  exists six,
    Str.upper (Color.rgb_to_hex r g b) = String "#" six /\ hex_3_or_6 six = true.
Proof.
  intros Hr Hg Hb.
  pose proof (range256_forall _ upper_hex_all r ltac:(lia)) as Kr.
  pose proof (range256_forall _ upper_hex_all g ltac:(lia)) as Kg.
  pose proof (range256_forall _ upper_hex_all b ltac:(lia)) as Kb.
  unfold upper_hex_ok in Kr, Kg, Kb.
  unfold Color.rgb_to_hex. rewrite !upper_app.
  destruct (Str.upper (PyInt.format_02x r)) as [|r1 [|r2 [|? ?]]]; try discriminate.
  destruct (Str.upper (PyInt.format_02x g)) as [|g1 [|g2 [|? ?]]]; try discriminate.
  destruct (Str.upper (PyInt.format_02x b)) as [|b1 [|b2 [|? ?]]]; try discriminate.
  apply andb_true_iff in Kr, Kg, Kb.
  eexists. split; [reflexivity|].
  unfold hex_3_or_6. cbn [append String.length Nat.eqb orb andb Str.forallb].
  destruct Kr as [-> ->], Kg as [-> ->], Kb as [-> ->]. reflexivity.
Qed.

(** X8. What [generate_color_results] shows is read back by [parse_color]:
    for every integer triple, with its channels clamped to r', g', b', the
    upper-case hex string is recognised as "hex" and the rgb string as "rgb",
    both with the channels (r', g', b'), and the hsl string is recognised as
    "hsl" with channels in [0,255]. *)
Theorem render_is_parsed (r g b : Z) :
  let r' := Color.clamp r in
  let g' := Color.clamp g in
  let b' := Color.clamp b in
  Color.parse_color (Str.upper (Color.rgb_to_hex r' g' b')) =
    Ok (Some ("hex", r', g', b')) /\
  Color.parse_color (rgb_string r' g' b') = Ok (Some ("rgb", r', g', b')) /\
  exists h s l r2 g2 b2,
    Color.rgb_to_hsl r' g' b' = Ok (h, s, l) /\
    Color.parse_color (hsl_string h s l) = Ok (Some ("hsl", r2, g2, b2)) /\
    0 <= r2 <= 255 /\ 0 <= g2 <= 255 /\ 0 <= b2 <= 255.
Proof.
  intros r' g' b'.
  pose proof (clamp_byte r) as Hr. pose proof (clamp_byte g) as Hg.
  pose proof (clamp_byte b) as Hb. fold r' in Hr. fold g' in Hg. fold b' in Hb.
  split; [|split].
  - destruct (upper_hex_shape r' g' b' Hr Hg Hb) as (six & E & H6).
    pose proof (upper_hex_decodes r' g' b' Hr Hg Hb) as D. rewrite E in *.
    destruct (parse_color_hex six H6) as (x & y & z & Eh & _ & _ & _ & _ & P).
    assert (E' : Color.hex_to_rgb (String "#" six) = Color.hex_to_rgb six)
      by reflexivity.
    rewrite E', Eh in D. injection D as -> -> ->. exact P.
  - apply parse_rgb_string; lia.
  - destruct (rgb_to_hsl_bytes r' g' b' Hr Hg Hb)
      as (_ & _ & _ & h & s & l & _ & _ & _ & _ & E & ? & ? & ?).
    destruct (hsl_small h s l) as (r2 & g2 & b2 & E2 & ? & ? & ?); try lia.
    exists h, s, l, r2, g2, b2. split; [exact E|].
    rewrite parse_hsl_string by lia. rewrite E2. auto.
Qed.

(** ** Inputs that are not recognised *)

Lemma lstrip_all (p : ascii -> bool) (s : string) :
  Str.forallb p s = true -> Str.lstrip p s = EmptyString.
Proof.
  induction s as [|c s IH]; [reflexivity|].
  simpl. rewrite andb_true_iff. intros [-> Hs]. exact (IH Hs).
Qed.

(** X9. A blank input is not a colour: on the empty string and on any
    string of white space only, [parse_color] returns [None]. *)
Theorem parse_color_blank (s : string) :
  Str.forallb Str.is_space s = true -> Color.parse_color s = Ok None.
Proof.
  intros H. unfold Color.parse_color, Str.strip.
  rewrite (lstrip_all _ _ H). reflexivity.
Qed.

Lemma parse_color_blank_witness : Color.parse_color "   " = Ok None.
Proof. apply parse_color_blank. reflexivity. Defined.

Lemma lstrip_app_space (p : ascii -> bool) (w s : string) :
  Str.forallb p w = true -> Str.lstrip p (w ++ s) = Str.lstrip p s.
Proof.
  induction w as [|c w IH]; [reflexivity|].
  simpl. rewrite andb_true_iff. intros [-> Hw]. exact (IH Hw).
Qed.

(** X10. The patterns are tried at the start of the text only: when the
    first character behind the leading white space, lower-cased, is neither
    '#', nor a digit, nor one of a to f, nor 'r', nor 'h', the input is not
    recognised, whatever follows. *)
Theorem parse_color_first_character (w : string) (c : ascii) (x : string) :
  Str.forallb Str.is_space w = true ->
  Str.is_space c = false ->
  Str.is_lower_hex (Str.lower_char c) = false ->
  Ascii.eqb "#" (Str.lower_char c) = false ->
  Ascii.eqb "r" (Str.lower_char c) = false ->
  Ascii.eqb "h" (Str.lower_char c) = false ->
  Color.parse_color (w ++ String c x) = Ok None.
Proof.
  intros Hw Hc Hhex Hhash Hr Hh.
  unfold Color.parse_color, Str.strip.
  rewrite (lstrip_app_space _ _ _ Hw), (lstrip_fixed _ c x Hc).
  destruct (rstrip_head _ c x Hc) as (y & ->).
  change (Str.lower (String c y)) with (String (Str.lower_char c) (Str.lower y)).
  rewrite (hex_re_first _ _ Hhex Hhash), (rgb_re_first _ _ Hr).
  rewrite comma_re_first, (hsl_re_first _ _ Hh); [reflexivity|].
  unfold Str.is_lower_hex in Hhex. apply orb_false_iff in Hhex. apply Hhex.
Qed.

Lemma parse_color_first_character_witness :
  Color.parse_color "  Tint: #ff0000" = Ok None.
Proof.
  apply (parse_color_first_character "  " "T" "int: #ff0000"); reflexivity.
Defined.

(** ** What [parse_color] can return *)





(** ** The shorthand of three digits *)

Definition doubled_value_ok (c : ascii) : bool :=
  match PyInt.digit_value c, PyInt.parse 16 (String c (String c EmptyString)) with
  | Some v, Ok w => implb (Str.is_hex c) ((w =? 17 * v) && (0 <=? v) && (v <=? 15))
  | _, _ => negb (Str.is_hex c)
  end.

Lemma doubled_values : List.forallb doubled_value_ok all_ascii = true.
Proof. vm_compute. reflexivity. Qed.

Lemma parse_doubled_value (c : ascii) :
  Str.is_hex c = true ->
  exists v, PyInt.digit_value c = Some v /\ 0 <= v <= 15 /\
            PyInt.parse 16 (String c (String c EmptyString)) = Ok (17 * v).
Proof.
  intros H. pose proof (ascii_forall _ doubled_values c) as K.
  unfold doubled_value_ok in K. rewrite H in K.
  destruct (PyInt.digit_value c) as [v|]; [|discriminate].
  destruct (PyInt.parse 16 _) as [w|]; [|discriminate].
  simpl in K. rewrite !andb_true_iff, Z.eqb_eq, !Z.leb_le in K.
  exists v. destruct K as [[-> ?] ?]. auto.
Qed.

(** X12. The shorthand of three hexadecimal digits stands for the six
    digits in which each one is doubled: both give 17 times the value of
    each digit, with or without the '#'. *)
Theorem hex_shorthand (a b c : ascii) :
  Str.is_hex a = true -> Str.is_hex b = true -> Str.is_hex c = true ->
  exists x y z,
    PyInt.digit_value a = Some x /\ PyInt.digit_value b = Some y /\
    PyInt.digit_value c = Some z /\
    let three := String a (String b (String c EmptyString)) in
    Color.hex_to_rgb three = Ok (17 * x, 17 * y, 17 * z) /\
    Color.hex_to_rgb (String "#" three) = Ok (17 * x, 17 * y, 17 * z) /\
    Color.hex_to_rgb (Str.double_each three) = Ok (17 * x, 17 * y, 17 * z).
Proof.
  intros Ha Hb Hc.
  destruct (parse_doubled_value a Ha) as (x & Ex & _ & Px).
  destruct (parse_doubled_value b Hb) as (y & Ey & _ & Py).
  destruct (parse_doubled_value c Hc) as (z & Ez & _ & Pz).
  exists x, y, z. repeat (split; [assumption|]).
  assert (Na : Ascii.eqb "#" a = false) by apply (hex_char a Ha).
  assert (E : Color.hex_to_rgb (String a (String b (String c EmptyString))) =
              Ok (17 * x, 17 * y, 17 * z)).
  { unfold Color.hex_to_rgb. rewrite (lstrip_fixed _ a _ Na).
    cbn [String.length Nat.eqb Str.double_each Str.slice substring].
    now rewrite Px, Py, Pz. }
  cbv zeta. split; [exact E|]. split; [exact E|].
  unfold Color.hex_to_rgb. cbn [Str.double_each]. rewrite (lstrip_fixed _ a _ Na).
  cbn [String.length Nat.eqb Str.slice substring].
  now rewrite Px, Py, Pz.
Qed.

Lemma hex_shorthand_witness :
  exists x y z,
    PyInt.digit_value "F" = Some x /\ PyInt.digit_value "5" = Some y /\
    PyInt.digit_value "3" = Some z /\
    Color.hex_to_rgb "F53" = Ok (17 * x, 17 * y, 17 * z) /\
    Color.hex_to_rgb "#F53" = Ok (17 * x, 17 * y, 17 * z) /\
    Color.hex_to_rgb "FF5533" = Ok (17 * x, 17 * y, 17 * z).
Proof. apply (hex_shorthand "F" "5" "3"); reflexivity. Defined.

(** ** The records determine the colour *)

Lemma app_cancel (p x y : string) : p ++ x = p ++ y -> x = y.
Proof.
  induction p as [|c p IH]; simpl; intros H; [exact H|].
  injection H as H. now apply IH.
Qed.

Lemma entries_hex (x y rs hs rs2 hs2 : string) :
  entries x rs hs = entries y rs2 hs2 -> x = y.
Proof.
  intros H.
  apply (f_equal (fun es => match es with e :: _ => Color.title e | [] => "" end)) in H.
  unfold entries in H. cbv beta iota delta [Color.title] in H.
  do 2 apply app_cancel in H. exact H.
Qed.

(** X13. [generate_color_results] depends on the clamped channels and on
    nothing else: two calls return the same records exactly when the three
    channels agree after clamping, whatever the two format names are. *)
Theorem render_injective (r g b r2 g2 b2 : Z) (fmt fmt2 : string) :
  Color.generate_color_results r g b fmt = Color.generate_color_results r2 g2 b2 fmt2 <->
  Color.clamp r = Color.clamp r2 /\ Color.clamp g = Color.clamp g2 /\
  Color.clamp b = Color.clamp b2.
Proof.
  split.
  - destruct (generate_color_results_entries r g b fmt) as (h & s & l & _ & _ & _ & _ & E).
    destruct (generate_color_results_entries r2 g2 b2 fmt2)
      as (h2 & s2 & l2 & _ & _ & _ & _ & E2).
    rewrite E, E2. intros H.
    apply (f_equal (fun x => match x with Ok es => es | Raise _ => [] end)) in H.
    cbv beta iota in H. apply entries_hex in H.
    pose proof (upper_hex_decodes _ _ _ (clamp_byte r) (clamp_byte g) (clamp_byte b)) as D.
    pose proof (upper_hex_decodes _ _ _ (clamp_byte r2) (clamp_byte g2) (clamp_byte b2)) as D2.
    rewrite H, D2 in D. injection D as -> -> ->. auto.
  - intros (Hr & Hg & Hb). unfold Color.generate_color_results. cbv zeta.
    now rewrite Hr, Hg, Hb.
Qed.

(** ** [rgb_to_hex] on bytes *)

(** X14. For channels in [0,255], [rgb_to_hex] writes '#' and six lower-case
    hexadecimal digits, and [parse_color] reads that text back as the same
    channels under the tag "hex". *)
Theorem rgb_to_hex_parsed (r g b : Z) :
  0 <= r <= 255 -> 0 <= g <= 255 -> 0 <= b <= 255 ->
  exists six,
    Color.rgb_to_hex r g b = String "#" six /\
    String.length six = 6%nat /\
    Str.forallb Str.is_lower_hex six = true /\
    Color.parse_color (Color.rgb_to_hex r g b) = Ok (Some ("hex", r, g, b)).
Proof.
  intros Hr Hg Hb.
  destruct (format_02x_byte r Hr) as (r1 & r2 & Er & Hr1 & Hr2 & Pr).
  destruct (format_02x_byte g Hg) as (g1 & g2 & Eg & Hg1 & Hg2 & Pg).
  destruct (format_02x_byte b Hb) as (b1 & b2 & Eb & Hb1 & Hb2 & Pb).
  set (six := String r1 (String r2 (String g1 (String g2 (String b1 (String b2 "")))))).
  assert (E : Color.rgb_to_hex r g b = String "#" six).
  { unfold Color.rgb_to_hex. now rewrite Er, Eg, Eb. }
  exists six. split; [exact E|]. split; [reflexivity|].
  split; [subst six; simpl; now rewrite Hr1, Hr2, Hg1, Hg2, Hb1, Hb2|].
  assert (S : hex_3_or_6 six = true).
  { unfold hex_3_or_6, six. cbn [String.length Nat.eqb orb andb Str.forallb].
    now rewrite !lower_hex_is_hex by assumption. }
  destruct (parse_color_hex six S) as (r0 & g0 & b0 & D & _ & _ & _ & _ & P).
  rewrite E, P. do 2 f_equal.
  assert (D' : Color.hex_to_rgb six = Ok (r, g, b)).
  { unfold Color.hex_to_rgb, six.
    rewrite (lstrip_fixed _ r1 _ (lower_hex_not_hash r1 Hr1)).
    cbn [String.length Nat.eqb Str.slice substring].
    now rewrite Pr, Pg, Pb. }
  rewrite D' in D. now injection D as -> -> ->.
Qed.

Lemma rgb_to_hex_parsed_witness :
  exists six,
    Color.rgb_to_hex 255 87 51 = String "#" six /\
    String.length six = 6%nat /\
    Str.forallb Str.is_lower_hex six = true /\
    Color.parse_color (Color.rgb_to_hex 255 87 51) = Ok (Some ("hex", 255, 87, 51)).
Proof. apply (rgb_to_hex_parsed 255 87 51); lia. Defined.

(** ** [main] *)

Lemma main_output_query (argv : list string) :
  Color.main_output argv =
  match nth 1 argv "" with
  | EmptyString => Color.main_output []
  | query => Color.main_output [""; query]
  end.
Proof.
  destruct argv as [|p [|q rest]]; try reflexivity.
  destruct q; reflexivity.
Qed.

Lemma generate_color_results_ok (r g b : Z) (fmt : string) :
  exists es, Color.generate_color_results r g b fmt = Ok es /\ List.length es = 5%nat.
Proof.
  destruct (generate_color_results_entries r g b fmt) as (h & s & l & _ & _ & _ & _ & E).
  rewrite E. eexists. split; reflexivity.
Qed.

(** X15. [main] fails exactly where [parse_color] fails on the query, and
    with the same exception: rendering a parsed colour never raises, and
    neither do the prompt and the error records. *)
Theorem main_output_raises (argv : list string) (e : exn) :
  Color.main_output argv = Raise e <-> Color.parse_color (nth 1 argv "") = Raise e.
Proof.
  rewrite main_output_query.
  destruct (nth 1 argv "") as [|c q]; [split; discriminate|].
  unfold Color.main_output.
  destruct (Color.parse_color (String c q)) as [[[[[f r] g] b]|]|e']; cbn [bind].
  - destruct (generate_color_results_ok r g b f) as (es & -> & _). split; discriminate.
  - split; discriminate.
  - split; intros [= ->]; reflexivity.
Qed.

(** X16. The list that [main] prints has one, two or five records: one for
    a missing or empty query, two when the query is not recognised, the
    first of them quoting the query as it was typed, and otherwise the five
    records of [generate_color_results] for the parsed colour. *)
Theorem main_output_records (argv : list string) (es : list Color.entry) :
  Color.main_output argv = Ok es ->
  let query := nth 1 argv "" in
  (query = "" /\ List.length es = 1%nat) \/
  (query <> "" /\ Color.parse_color query = Ok None /\
   exists e1 e2, es = [e1; e2] /\ Color.subtitle e1 = "Could not parse: " ++ query) \/
  (query <> "" /\
   exists f r g b,
     Color.parse_color query = Ok (Some (f, r, g, b)) /\
     Color.generate_color_results r g b f = Ok es /\ List.length es = 5%nat).
Proof.
  cbv zeta. rewrite main_output_query.
  destruct (nth 1 argv "") as [|c q].
  { intros [= <-]. left. split; reflexivity. }
  unfold Color.main_output.
  destruct (Color.parse_color (String c q)) as [[[[[f r] g] b]|]|e']; cbn [bind];
    [| |discriminate].
  - intros H. right. right. split; [discriminate|].
    exists f, r, g, b. split; [reflexivity|]. split; [exact H|].
    destruct (generate_color_results_ok r g b f) as (es' & E & L).
    rewrite E in H. injection H as <-. exact L.
  - intros [= <-]. right. left. split; [discriminate|]. split; [reflexivity|].
    eexists _, _. split; reflexivity.
Qed.

Lemma main_output_records_witness :
  exists es, Color.main_output ["color.py"; "teal"] = Ok es /\
  (("teal" = "" /\ List.length es = 1%nat) \/
   ("teal" <> "" /\ Color.parse_color "teal" = Ok None /\
    exists e1 e2, es = [e1; e2] /\ Color.subtitle e1 = "Could not parse: " ++ "teal") \/
   ("teal" <> "" /\
    exists f r g b,
      Color.parse_color "teal" = Ok (Some (f, r, g, b)) /\
      Color.generate_color_results r g b f = Ok es /\ List.length es = 5%nat)).
Proof.
  eexists. split; [reflexivity|].
  apply (main_output_records ["color.py"; "teal"]). reflexivity.
Defined.

(** X17. A query of white space only is not empty: [main] answers it with
    the two error records, not with the prompt, although [parse_color]
    strips it to the empty string. *)
Theorem main_output_blank (program : string) (c : ascii) (q : string) (rest : list string) :
  Str.forallb Str.is_space (String c q) = true ->
  Color.main_output (program :: String c q :: rest) =
  Ok [ Color.mk_entry "Invalid color format" ("Could not parse: " ++ String c q)
         "echo 'Invalid color' | wl-copy";
       Color.mk_entry "Supported formats:" "#FF5733, rgb(255,87,51), hsl(9,100%,60%)"
         "echo 'See examples' | wl-copy" ].
Proof.
  intros H. unfold Color.main_output.
  assert (E : Color.parse_color (String c q) = Ok None).
  { unfold Color.parse_color, Str.strip. rewrite (lstrip_all _ _ H). reflexivity. }
  rewrite E. reflexivity.
Qed.

Lemma main_output_blank_witness :
  Color.main_output ["color.py"; " "] =
  Ok [ Color.mk_entry "Invalid color format" ("Could not parse: " ++ " ")
         "echo 'Invalid color' | wl-copy";
       Color.mk_entry "Supported formats:" "#FF5733, rgb(255,87,51), hsl(9,100%,60%)"
         "echo 'See examples' | wl-copy" ].
Proof. apply (main_output_blank "color.py" " " "" []). reflexivity. Defined.

(** ** The typing simulation of scripts/measure_latency.py *)

Definition keystroke_line (k : nat) (typed : string) : string :=
  "  Keystroke " ++ PyInt.str (Z.of_nat k + 1) ++ ": '" ++ typed ++ "'".

Lemma keystrokes_length (rest : string) :
  forall i cumulative,
    List.length (Latency.keystrokes i cumulative rest) = String.length rest.
Proof.
  induction rest as [|c rest IH]; intros i cumulative; [reflexivity|].
  cbn [Latency.keystrokes]. cbv zeta. simpl. now rewrite IH.
Qed.

Lemma keystrokes_nth (rest : string) :
  forall i cumulative k, (k < String.length rest)%nat ->
    nth k (Latency.keystrokes i cumulative rest) "" =
    keystroke_line (i + k) (cumulative ++ Str.take (S k) rest).
Proof.
  induction rest as [|c rest IH]; intros i cumulative k Hk; [simpl in Hk; lia|].
  cbn [Latency.keystrokes]. cbv zeta. destruct k as [|k].
  - cbn [nth Str.take]. rewrite Nat.add_0_r. reflexivity.
  - cbn [nth]. simpl in Hk. rewrite IH by lia.
    rewrite app_assoc. cbn [append Str.take].
    now replace (S i + k)%nat with (i + S k)%nat by lia.
Qed.

(** X18. For any query, the inner loop prints one line per character; the
    line of keystroke k+1 carries that number and the first k+1 characters
    of the query, so the last one shows the whole query.  The block of a
    query is its heading, these lines and an empty line. *)
Theorem query_lines_prefixes (full_query description : string) :
  let block := Latency.query_lines (full_query, description) in
  List.length block = (String.length full_query + 2)%nat /\
  (forall k, (k < String.length full_query)%nat ->
     nth (S k) block "" = keystroke_line k (Str.take (S k) full_query)) /\
  (full_query <> "" ->
     nth (String.length full_query) block "" =
     keystroke_line (String.length full_query - 1) full_query) /\
  nth (S (String.length full_query)) block "-" = "".
Proof.
  cbv zeta. unfold Latency.query_lines.
  assert (T : forall s, Str.take (String.length s) s = s).
  { induction s as [|c s IH]; [reflexivity|]. simpl. now rewrite IH. }
  split; [|split; [|split]].
  - cbn [List.length]. rewrite List.length_app, keystrokes_length. simpl. lia.
  - intros k Hk. cbn [nth]. rewrite app_nth1 by (rewrite keystrokes_length; exact Hk).
    now rewrite keystrokes_nth.
  - intros Hq. destruct full_query as [|c q]; [congruence|].
    cbn [String.length nth].
    rewrite app_nth1 by (rewrite keystrokes_length; simpl; lia).
    rewrite keystrokes_nth by (simpl; lia).
    change (S (String.length q)) with (String.length (String c q)). rewrite T.
    cbn [append]. f_equal. simpl. lia.
  - cbn [nth]. rewrite app_nth2 by (rewrite keystrokes_length; lia).
    rewrite keystrokes_length, Nat.sub_diag. reflexivity.
Qed.

(** X19. [measure_search_latency] prints 52 lines, and among them, for each
    of its test queries, the line of every keystroke with the prefix typed
    so far. *)
Theorem measure_search_latency_lines :
  List.length Latency.measure_search_latency = 52%nat /\
  forall full_query description k,
    In (full_query, description) Latency.test_queries ->
    (k < String.length full_query)%nat ->
    In (keystroke_line k (Str.take (S k) full_query)) Latency.measure_search_latency.
Proof.
  split; [reflexivity|].
  intros q d k Hq Hk. unfold Latency.measure_search_latency.
  apply in_or_app. right. apply in_or_app. left.
  apply in_flat_map. exists (q, d). split; [exact Hq|].
  unfold Latency.query_lines. right. apply in_or_app. left.
  pose proof (keystrokes_nth q 0 "" k Hk) as E. cbn [append Nat.add] in E.
  rewrite <- E. apply nth_In. now rewrite keystrokes_length.
Qed.

(** ** Where [parse_color] can raise *)

(** X20. A run of [parse_color] that raises has failed on the hex pattern
    and matched, first among the other three, a pattern with three numerals:
    either one of them has more than 4300 digits and [int] raises
    [ValueError], or the pattern is the hsl one and [hsl_to_rgb_tuple]
    raises on the three numbers. *)
Theorem parse_color_raise_cases (s : string) (e : exn) :
  Color.parse_color s = Raise e ->
  let n := Str.lower (Str.strip s) in
  Re.rmatch Color.hex_re n = None /\
  exists m,
    three_numbers m /\
    (Re.rmatch Color.rgb_re n = Some m \/
     Re.rmatch Color.rgb_re n = None /\ Re.rmatch Color.comma_re n = Some m \/
     Re.rmatch Color.rgb_re n = None /\ Re.rmatch Color.comma_re n = None /\
     Re.rmatch Color.hsl_re n = Some m) /\
    (all_short [Re.group 1 m; Re.group 2 m; Re.group 3 m] = false /\ e = ValueError \/
     all_short [Re.group 1 m; Re.group 2 m; Re.group 3 m] = true /\
     Re.rmatch Color.hsl_re n = Some m /\
     Color.hsl_to_rgb_tuple (decimal_value (Re.group 1 m))
       (decimal_value (Re.group 2 m)) (decimal_value (Re.group 3 m)) = Raise e).
Proof.
  intros H n. unfold Color.parse_color in H. fold n in H.
  destruct (Re.rmatch Color.hex_re n) as [m|] eqn:Ehex.
  { destruct (hex_re_accepted _ _ Ehex) as (r & g & b & E & _).
    rewrite E in H. discriminate. }
  split; [reflexivity|].
  destruct (Re.rmatch Color.rgb_re n) as [m|] eqn:Ergb.
  { pose proof (rgb_re_groups _ _ Ergb) as N.
    rewrite (int_groups_numbers _ N) in H. unfold read3 in H.
    exists m. split; [exact N|]. split; [auto|]. left.
    destruct (all_short _); [discriminate|]. now injection H as <-. }
  destruct (Re.rmatch Color.comma_re n) as [m|] eqn:Ecomma.
  { pose proof (comma_re_groups _ _ Ecomma) as N.
    rewrite (int_groups_numbers _ N) in H. unfold read3 in H.
    exists m. split; [exact N|]. split; [auto|]. left.
    destruct (all_short _); [discriminate|]. now injection H as <-. }
  destruct (Re.rmatch Color.hsl_re n) as [m|] eqn:Ehsl; [|discriminate].
  pose proof (hsl_re_groups _ _ Ehsl) as N.
  rewrite (int_groups_numbers _ N) in H. unfold read3 in H.
  exists m. split; [exact N|]. split; [auto|].
  destruct (all_short _); cbn [bind] in H.
  - right. repeat split.
    destruct (Color.hsl_to_rgb_tuple _ _ _) as [[[r g] b]|e']; [discriminate|].
    now injection H as ->.
  - left. now injection H as <-.
Qed.

Lemma parse_color_raise_cases_witness :
  let n := Str.lower (Str.strip huge_hue) in
  Re.rmatch Color.hex_re n = None /\
  exists m,
    three_numbers m /\
    (Re.rmatch Color.rgb_re n = Some m \/
     Re.rmatch Color.rgb_re n = None /\ Re.rmatch Color.comma_re n = Some m \/
     Re.rmatch Color.rgb_re n = None /\ Re.rmatch Color.comma_re n = None /\
     Re.rmatch Color.hsl_re n = Some m) /\
    (all_short [Re.group 1 m; Re.group 2 m; Re.group 3 m] = false /\
     OverflowError = ValueError \/
     all_short [Re.group 1 m; Re.group 2 m; Re.group 3 m] = true /\
     Re.rmatch Color.hsl_re n = Some m /\
     Color.hsl_to_rgb_tuple (decimal_value (Re.group 1 m))
       (decimal_value (Re.group 2 m)) (decimal_value (Re.group 3 m)) =
     Raise OverflowError).
Proof. apply (parse_color_raise_cases huge_hue OverflowError). vm_compute. reflexivity. Defined.

(** ** The four patterns exclude one another *)

Lemma comma_re_comma (s : string) (m : Re.caps) :
  Re.rmatch Color.comma_re s = Some m -> Str.forallb hexish s = false.
Proof.
  intros H. apply rmatch_sound in H. destruct H as (s' & H).
  unfold Color.comma_re in H. split_match.
  do 2 apply forallb_false_app. reflexivity.
Qed.

Definition hex_start_ok (c : ascii) : bool :=
  implb (Str.is_lower_hex c || Ascii.eqb "#" c)
        (negb (Ascii.eqb "r" c) && negb (Ascii.eqb "h" c)).

Lemma hex_starts : List.forallb hex_start_ok all_ascii = true.
Proof. vm_compute. reflexivity. Qed.

(** X21. No text matches two of the four patterns: a match of the hex
    pattern rules out the other three, a match of the rgb pattern the bare
    triple and the hsl pattern, and a match of the bare triple the hsl
    pattern.  So the order in which [parse_color] tries them cannot be
    observed in its result. *)
Theorem patterns_exclusive (n : string) :
  (Re.rmatch Color.hex_re n <> None ->
   Re.rmatch Color.rgb_re n = None /\ Re.rmatch Color.comma_re n = None /\
   Re.rmatch Color.hsl_re n = None) /\
  (Re.rmatch Color.rgb_re n <> None ->
   Re.rmatch Color.comma_re n = None /\ Re.rmatch Color.hsl_re n = None) /\
  (Re.rmatch Color.comma_re n <> None -> Re.rmatch Color.hsl_re n = None).
Proof.
  destruct n as [|c x]; [repeat split; reflexivity|].
  split; [|split].
  - intros H.
    assert (S : Str.is_lower_hex c || Ascii.eqb "#" c = true).
    { destruct (Str.is_lower_hex c) eqn:E1; [reflexivity|].
      destruct (Ascii.eqb "#" c) eqn:E2; [reflexivity|].
      now rewrite (hex_re_first c x E1 E2) in H. }
    pose proof (ascii_forall _ hex_starts c) as K. unfold hex_start_ok in K.
    rewrite S in K. cbn [implb] in K. apply andb_true_iff in K.
    destruct K as [Kr Kh]. apply negb_true_iff in Kr, Kh.
    split; [exact (rgb_re_first c x Kr)|]. split; [|exact (hsl_re_first c x Kh)].
    destruct (Re.rmatch Color.comma_re (String c x)) as [m|] eqn:E; [|reflexivity].
    apply comma_re_comma in E. now rewrite (hex_re_hexish _ E) in H.
  - intros H.
    assert (R : Ascii.eqb "r" c = true).
    { destruct (Ascii.eqb "r" c) eqn:E; [reflexivity|].
      now rewrite (rgb_re_first c x E) in H. }
    apply Ascii.eqb_eq in R. subst c.
    split; [apply comma_re_first | apply hsl_re_first]; reflexivity.
  - intros H.
    assert (D : Str.is_digit c = true).
    { destruct (Str.is_digit c) eqn:E; [reflexivity|].
      now rewrite (comma_re_first c x E) in H. }
    apply hsl_re_first. digit_cases c D; reflexivity.
Qed.
